(** * sherwood_train_mex: the MATLAB entry point that trains and saves a forest

    A shallow embedding of [src/include/sherwood_train_mex.cpp]: the
    [FeatureFactory] class, the templated [main_function] and the
    dispatching [mexFunction].

    What the entry point does to the outside world is recorded as a trace
    of events: every [mexPrintf], every call into the Sherwood trainer,
    every use of the OpenMP write lock, the opening of the output stream
    and the call of [Forest::Serialize].  The Sherwood library itself
    ([TreeTrainer::TrainTree], [Forest::Serialize], the feature responses)
    and the header [sherwood_mex.h] ([Options], [DataPointCollection]) are
    not part of the examined source: their types are records of the
    members the entry point reads, and their functions are section
    variables. *)

From Stdlib Require Import String ZArith List Bool Arith Lia Permutation.
Import ListNotations.

(** ** Data of the binding layer *)

(** [options.WeakLearner].  The entry point compares it with the two
    enumerators [AxisAligned] and [RandomHyperplane] only and has no final
    [else]; any other value of the underlying integer is kept as
    [OtherWeakLearner]. *)
Inductive WeakLearnerType : Type :=
| AxisAligned
| RandomHyperplane
| OtherWeakLearner (code : Z).

Definition WeakLearner_eqb (a b : WeakLearnerType) : bool :=
  match a, b with
  | AxisAligned, AxisAligned => true
  | RandomHyperplane, RandomHyperplane => true
  | OtherWeakLearner x, OtherWeakLearner y => Z.eqb x y
  | _, _ => false
  end.

(** The template argument [F] of [main_function]: the three feature
    responses [mexFunction] can instantiate it with.  (The other template
    argument is [HistogramAggregator] in all three.) *)
Inductive FeatureResponse : Type :=
| AxisAlignedFeatureResponse
| RandomHyperplaneFeatureResponse
| RandomHyperplaneFeatureResponseNormalized.

(** The level handed to [ProgressStream progressStream(std::cout, Silent)]. *)
Inductive VerboseLevel : Type :=
| Silent.

Module Options.
(** The members of [Options] that the entry point reads (and, for
    [MaxThreads], writes).  The numeric members are C++ [int]s; no
    arithmetic is done on them here, so they are kept as [Z]. *)
Record t : Type := mk {
  MaxDecisionLevels : Z;
  NumberOfCandidateFeatures : Z;
  NumberOfCandidateThresholdsPerFeature : Z;
  NumberOfTrees : Z;
  MaxThreads : Z;
  WeakLearner : WeakLearnerType;
  WeakLearnerStr : string;
  FeatureScaling : bool;
  Verbose : bool;
  ForestName : string
}.

(** [options.MaxThreads = n;] *)
Definition set_MaxThreads (o : t) (n : Z) : t :=
  mk (MaxDecisionLevels o) (NumberOfCandidateFeatures o)
     (NumberOfCandidateThresholdsPerFeature o) (NumberOfTrees o)
     n (WeakLearner o) (WeakLearnerStr o) (FeatureScaling o)
     (Verbose o) (ForestName o).

(** The same options with another [Verbose]; the entry point never does
    this, it serves to compare two runs. *)
Definition set_Verbose (o : t) (b : bool) : t :=
  mk (MaxDecisionLevels o) (NumberOfCandidateFeatures o)
     (NumberOfCandidateThresholdsPerFeature o) (NumberOfTrees o)
     (MaxThreads o) (WeakLearner o) (WeakLearnerStr o) (FeatureScaling o)
     b (ForestName o).
End Options.

Module TrainingParameters.
(** The five members of Sherwood's [TrainingParameters] that
    [main_function] assigns. *)
Record t : Type := mk {
  MaxDecisionLevels : Z;
  NumberOfCandidateFeatures : Z;
  NumberOfCandidateThresholdsPerFeature : Z;
  NumberOfTrees : Z;
  Verbose : bool
}.
End TrainingParameters.


(** One of the four counts is not positive. *)
Definition nonpositive_count (o : Options.t) : Prop :=
  (Options.MaxDecisionLevels o <= 0)%Z \/
  (Options.NumberOfCandidateFeatures o <= 0)%Z \/
  (Options.NumberOfCandidateThresholdsPerFeature o <= 0)%Z \/
  (Options.NumberOfTrees o <= 0)%Z.

(** What can end a run early, as far as it is followed here: a
    dereference of the null [auto_ptr], and an exception of
    [Forest::Serialize].  [main_function] has no [throw] and no
    [mexErrMsgTxt] of its own.  Exceptions of the other library calls (the
    constructor of the data, the trainer, allocation) are not followed: a
    run is described as long as these calls return. *)
Inductive Fault : Type :=
| NullForest
| SerializeThrew.

Inductive Outcome (A : Type) : Type :=
| Returns (a : A)
| Throws (f : Fault).
Arguments Returns {A} a.
Arguments Throws {A} f.

(** ** Types of the Sherwood library and of a run

    [Stats] (a mean and a standard deviation), [Tree<F,S>] and [Random]
    are the library's and stay abstract. *)
Set Implicit Arguments.
Set Contextual Implicit.
Set Maximal Implicit Insertion.

Section Types.

Variables Stats Tree Random : Type.

(** [DataPointCollection]: the four members the entry point calls. *)
Record DataPointCollection : Type := {
  Dimensions : nat;
  CountClasses : nat;
  Count : nat;
  GetStats : nat -> Stats
}.

(** [class FeatureFactory<F>]: its two data members, and the template
    argument it was instantiated with. *)
Record FeatureFactory : Type := {
  response : FeatureResponse;
  dimensions : nat;
  featureStats : list Stats
}.

(** [ClassificationTrainingContext<F>(nClasses, &featureFactory)]. *)
Record ClassificationTrainingContext : Type := {
  nClasses : nat;
  featureFactory : FeatureFactory
}.

(** [Forest<F,S>]: the trees in the order they were added. *)
Definition Forest : Type := list Tree.

(** The seven [mexPrintf] statements, with their arguments. *)
Inductive Message : Type :=
| TrainingDataSummary (features classes examples : nat)
| UsingWeakLearner (name : string)
| NoFeatureScaling
| FeatureLine (d : nat) (s : Stats)
| NoOpenMPFallback
| Using1Thread
| UsingOpenMP (current maximum : Z).

(** What a run does that can be seen from outside.  The [holder] fields
    name the loop iteration that holds [writelock] at that moment, if
    any. *)
Inductive Event : Type :=
| Printed (m : Message)
| Call_TrainForest (parameters : TrainingParameters.t)
                   (context : ClassificationTrainingContext)
                   (progress : VerboseLevel)
| Call_TrainTree (t : nat) (parameters : TrainingParameters.t)
                 (context : ClassificationTrainingContext)
                 (holder : option nat)
| Lock_set (t : nat)
| Call_AddTree (t : nat) (tree : Tree) (holder : option nat)
| Lock_unset (t : nat)
| Opened (path : string) (good : bool)
| Call_Serialize (forest : Forest) (good : bool)
| Written (path : string) (bytes : list Byte.byte).

(** What the run finds around it: the state of [Random random;] right
    after its construction, whether [std::ofstream] manages to open a path,
    what the OpenMP runtime answers, and, for the parallel loop, which
    iteration moves next at each step. *)
Record Environment : Type := {
  seed : Random;
  ofstream_opens : string -> bool;
  omp_get_num_threads : Z;
  omp_get_max_threads : Z;
  schedule : list nat
}.

(** Where an iteration of the parallel loop stands: its body is the four
    steps [TrainTree], [omp_set_lock], [AddTree], [omp_unset_lock]. *)
Inductive Position : Type :=
| NotStarted
| Trained (tree : Tree)
| InCritical (tree : Tree)
| Appended
| Finished.

(** The parallel loop in flight.  [random], [forest] and [writelock] are
    declared outside the loop: one object each for all iterations. *)
Record Team : Type := {
  position : nat -> Position;
  writelock : option nat;
  shared_random : Random;
  shared_forest : Forest;
  team_events : list Event
}.

End Types.

Unset Maximal Implicit Insertion.
Unset Contextual Implicit.
Unset Implicit Arguments.

(** ** A small stand-in for the Sherwood library

    Used to run the entry point on concrete inputs: the random source is a
    counter, a tree is the draw it was trained from, statistics are
    integers, and serialization writes one byte per tree and never
    throws. *)
Module Toy.
Definition Stats : Type := Z.
Definition Tree : Type := nat.
Definition Random : Type := nat.
Definition Feature : Type := nat.

Definition F_CreateRandom (F : FeatureResponse) (random : Random)
           (dims : nat) (stats : list Stats) : Feature * Random :=
  (random, S random).

Definition TrainTree (random : Random)
           (context : ClassificationTrainingContext Stats)
           (parameters : TrainingParameters.t)
           (data : DataPointCollection Stats) : Tree * Random :=
  (random, S random).

Definition byte_of_tree (t : Tree) : Byte.byte :=
  match Byte.of_nat t with Some b => b | None => Byte.xff end.

Definition Forest_Serialize (forest : Forest Tree) (good : bool)
  : list Byte.byte * bool :=
  (map byte_of_tree forest, false).


Definition options (trees threads : Z) (wl : WeakLearnerType)
           (scaling verbose : bool) : Options.t :=
  Options.mk 5 10 10 trees threads wl "weak-learner" scaling verbose
             "forest.bin".

(** Options whose depth and candidate counts are not positive. *)
Definition options_without_counts (trees threads : Z) : Options.t :=
  Options.mk 0 (-3) 0 trees threads AxisAligned "weak-learner" false false
             "forest.bin".

(** [dims] features, two classes, eight examples. *)
Definition data (dims : nat) : DataPointCollection Stats :=
  {| Dimensions := dims; CountClasses := 2; Count := 8;
     GetStats := fun d => Z.of_nat d |}.

Definition env (opens : bool) (sched : list nat) : Environment Random :=
  {| seed := 0; ofstream_opens := fun _ => opens;
     omp_get_num_threads := 2; omp_get_max_threads := 2;
     schedule := sched |}.
End Toy.

Set Implicit Arguments.

Section Sherwood.

#[local] Set Default Proof Using "Type".

(** *** The library the entry point is compiled against *)

Variables Stats Tree Random Feature : Type.

(** [F::CreateRandom(random, dimensions, featureStats)], one static
    member per feature response. *)
Variable F_CreateRandom :
  FeatureResponse -> Random -> nat -> list Stats -> Feature * Random.

(** [TreeTrainer<F,S>::TrainTree(random, context, parameters, data)]:
    draws from [random] (passed by reference, returned here as the second
    component) and returns the trained tree. *)
Variable TrainTree :
  Random -> ClassificationTrainingContext Stats -> TrainingParameters.t ->
  DataPointCollection Stats -> Tree * Random.

(** [Forest::Serialize(stream)]: the bytes it sends to the stream, and
    whether it throws; its second argument tells whether the stream it
    is given is good. *)
Variable Forest_Serialize : Forest Tree -> bool -> list Byte.byte * bool.

(** [#if USE_OPENMP == 1]: the build flag. *)
Variable USE_OPENMP : bool.

(** [FeatureFactory::CreateRandom]. *)
Definition CreateRandom (factory : FeatureFactory Stats) (random : Random)
  : Feature * Random :=
  F_CreateRandom (response factory) random
                 (dimensions factory) (featureStats factory).

(** Modelled from the spec: [Forest::AddTree] is not in the examined
    source.  The forest owns an ordered collection of trees, and adding a
    tree appends it. *)
Definition AddTree (forest : Forest Tree) (tree : Tree) : Forest Tree :=
  forest ++ [tree].

(** Modelled from the spec: [ForestTrainer::TrainForest] is not in the
    examined source.  The forest trainer produces [NumberOfTrees] trees
    sequentially, each drawing from the shared random-number sequence,
    and appends them to the forest in completion order. *)
Fixpoint TrainForest_loop (n : nat) (random : Random)
         (context : ClassificationTrainingContext Stats)
         (parameters : TrainingParameters.t)
         (data : DataPointCollection Stats) (forest : Forest Tree)
  : Forest Tree * Random :=
  match n with
  | O => (forest, random)
  | S k =>
      let '(tree, random') := TrainTree random context parameters data in
      TrainForest_loop k random' context parameters data
                       (AddTree forest tree)
  end.

(** Modelled from the spec: [ForestTrainer::TrainForest], as above; it
    starts from an empty forest and returns it with the [NumberOfTrees]
    trees. *)
Definition TrainForest (random : Random)
           (parameters : TrainingParameters.t)
           (context : ClassificationTrainingContext Stats)
           (data : DataPointCollection Stats) : Forest Tree * Random :=
  TrainForest_loop (Z.to_nat (TrainingParameters.NumberOfTrees parameters))
                   random context parameters data [].

(** *** Effects of the entry point

    A computation prints and calls, then returns or throws. *)
Definition M (A : Type) : Type := list (Event Stats Tree) * Outcome A.

Definition ret {A : Type} (a : A) : M A := ([], Returns a).

Definition bind {A B : Type} (m : M A) (k : A -> M B) : M B :=
  match m with
  | (tr, Returns a) => let (tr', r) := k a in (tr ++ tr', r)
  | (tr, Throws f) => (tr, Throws f)
  end.

Definition throw {A : Type} (f : Fault) : M A := ([], Throws f).

Definition emit (e : Event Stats Tree) : M unit := ([e], Returns tt).

Definition mexPrintf (m : Message Stats) : M unit := emit (Printed m).

Definition when (b : bool) (m : M unit) : M unit :=
  if b then m else ret tt.

Definition trace {A : Type} (m : M A) : list (Event Stats Tree) := fst m.
Definition outcome {A : Type} (m : M A) : Outcome A := snd m.

Local Notation "x <- m ;; k" := (bind m (fun x => k))
  (at level 61, m at next level, right associativity).
Local Notation "m ;; k" := (bind m (fun _ => k))
  (at level 61, right associativity).

(** *** The loop [#pragma omp parallel for] over the trees

    Iterations interleave step by step; [omp_set_lock] can be taken only
    while the lock is free.  Each of the four steps of an iteration is one
    step of the team: a call of [TrainTree] reads and advances the shared
    [random] in one go.  Any number of iterations may be in flight, which
    covers every team size. *)
Definition move (pos : nat -> Position Tree) (t : nat) (p : Position Tree)
  : nat -> Position Tree :=
  fun t' => if Nat.eqb t' t then p else pos t'.

Definition enabled (team : Team Stats Tree Random) (t : nat) : bool :=
  match position team t with
  | NotStarted => true
  | Trained _ =>
      match writelock team with None => true | Some _ => false end
  | InCritical _ => true
  | Appended => true
  | Finished => false
  end.

(** Iteration [t] takes its next step. *)
Definition advance (context : ClassificationTrainingContext Stats)
           (parameters : TrainingParameters.t)
           (data : DataPointCollection Stats)
           (t : nat) (team : Team Stats Tree Random)
  : Team Stats Tree Random :=
  match position team t with
  | NotStarted =>
      let '(tree, random') :=
        TrainTree (shared_random team) context parameters data in
      {| position := move (position team) t (Trained tree);
         writelock := writelock team;
         shared_random := random';
         shared_forest := shared_forest team;
         team_events :=
           team_events team
           ++ [Call_TrainTree t parameters context (writelock team)] |}
  | Trained tree =>
      {| position := move (position team) t (InCritical tree);
         writelock := Some t;
         shared_random := shared_random team;
         shared_forest := shared_forest team;
         team_events := team_events team ++ [Lock_set t] |}
  | InCritical tree =>
      {| position := move (position team) t Appended;
         writelock := writelock team;
         shared_random := shared_random team;
         shared_forest := AddTree (shared_forest team) tree;
         team_events :=
           team_events team ++ [Call_AddTree t tree (writelock team)] |}
  | Appended =>
      {| position := move (position team) t Finished;
         writelock := None;
         shared_random := shared_random team;
         shared_forest := shared_forest team;
         team_events := team_events team ++ [Lock_unset t] |}
  | Finished => team
  end.

(** One step of the team: [choice] picks among the iterations that can
    move. *)
Definition omp_step (context : ClassificationTrainingContext Stats)
           (parameters : TrainingParameters.t)
           (data : DataPointCollection Stats)
           (n : nat) (choice : nat) (team : Team Stats Tree Random)
  : Team Stats Tree Random :=
  match filter (enabled team) (seq 0 n) with
  | [] => team
  | t0 :: rest =>
      advance context parameters data
              (nth (choice mod List.length (t0 :: rest)) (t0 :: rest) t0) team
  end.

Fixpoint omp_run (context : ClassificationTrainingContext Stats)
         (parameters : TrainingParameters.t)
         (data : DataPointCollection Stats)
         (n : nat) (steps : nat) (sched : list nat)
         (team : Team Stats Tree Random) : Team Stats Tree Random :=
  match steps with
  | O => team
  | S steps' =>
      omp_run context parameters data n steps' (tl sched)
              (omp_step context parameters data n (hd 0 sched) team)
  end.

Definition team_start (random : Random) : Team Stats Tree Random :=
  {| position := fun _ => NotStarted;
     writelock := None;
     shared_random := random;
     shared_forest := [];
     team_events := [] |}.

(** [for (int t = 0; t < trainingParameters.NumberOfTrees; t++)] under
    [#pragma omp parallel for], run to the end of the loop. *)
Definition omp_parallel_for (random : Random)
           (context : ClassificationTrainingContext Stats)
           (parameters : TrainingParameters.t)
           (data : DataPointCollection Stats) (sched : list nat)
  : Team Stats Tree Random :=
  let n := Z.to_nat (TrainingParameters.NumberOfTrees parameters) in
  omp_run context parameters data n (4 * n) sched (team_start random).

(** *** [main_function] *)

(** The loop over the dimensions that fills [featureStats]. *)
Fixpoint stats_loop (verbose : bool) (trainingData : DataPointCollection Stats)
         (ds : list nat) (featureStats : list Stats) : M (list Stats) :=
  match ds with
  | [] => ret featureStats
  | d :: ds' =>
      let pushed := GetStats trainingData d in
      let featureStats := featureStats ++ [pushed] in
      when verbose (mexPrintf (FeatureLine d (nth d featureStats pushed))) ;;
      stats_loop verbose trainingData ds' featureStats
  end.

(** [std::ofstream o(path, std::ios_base::binary);] never throws; a stream
    that could not be opened is simply not good. *)
Definition ofstream_open (env : Environment Random) (path : string) : M bool :=
  let good := ofstream_opens env path in
  emit (Opened path good) ;; ret good.

(** [forest->Serialize(o)]: what reaches the file when the stream is
    good. *)
Definition Serialize (forest : Forest Tree) (path : string) (good : bool)
  : M unit :=
  let '(bytes, threw) := Forest_Serialize forest good in
  emit (Call_Serialize forest good) ;;
  when good (emit (Written path bytes)) ;;
  if threw then throw SerializeThrew else ret tt.

(** [main_function<F, S>(nlhs, plhs, nrhs, prhs, options)], from the
    construction of [trainingData] on.  [options] is a copy: the assignment
    to [options.MaxThreads] is local to the call. *)
Definition main_function (F : FeatureResponse) (env : Environment Random)
           (trainingData : DataPointCollection Stats) (options : Options.t)
  : M unit :=
  let trainingParameters :=
    {| TrainingParameters.MaxDecisionLevels :=
         Options.MaxDecisionLevels options;
       TrainingParameters.NumberOfCandidateFeatures :=
         Options.NumberOfCandidateFeatures options;
       TrainingParameters.NumberOfCandidateThresholdsPerFeature :=
         Options.NumberOfCandidateThresholdsPerFeature options;
       TrainingParameters.NumberOfTrees := Options.NumberOfTrees options;
       TrainingParameters.Verbose := false |} in
  when (Options.Verbose options)
       (mexPrintf (TrainingDataSummary (Dimensions trainingData)
                                       (CountClasses trainingData)
                                       (Count trainingData)) ;;
        mexPrintf (UsingWeakLearner (Options.WeakLearnerStr options))) ;;
  let random := seed env in
  featureStats <-
    (if negb (Options.FeatureScaling options) then
       when (Options.Verbose options
             && negb (WeakLearner_eqb (Options.WeakLearner options)
                                      AxisAligned))
            (mexPrintf NoFeatureScaling) ;;
       ret []
     else
       stats_loop (Options.Verbose options) trainingData
                  (seq 0 (Dimensions trainingData)) []) ;;
  let featureFactory :=
    {| response := F;
       dimensions := Dimensions trainingData;
       featureStats := featureStats |} in
  let classificationContext :=
    {| nClasses := CountClasses trainingData;
       featureFactory := featureFactory |} in
  options <-
    (if USE_OPENMP then ret options
     else
       when (1 <? Options.MaxThreads options)%Z
            (mexPrintf NoOpenMPFallback) ;;
       ret (Options.set_MaxThreads options 1)) ;;
  forest <-
    (if (Options.MaxThreads options =? 1)%Z then
       mexPrintf Using1Thread ;;
       emit (Call_TrainForest trainingParameters classificationContext
                              Silent) ;;
       ret (Some (fst (TrainForest random trainingParameters
                                   classificationContext trainingData)))
     else if USE_OPENMP then
       when (Options.Verbose options)
            (mexPrintf (UsingOpenMP (omp_get_num_threads env)
                                    (omp_get_max_threads env))) ;;
       let team :=
         omp_parallel_for random classificationContext trainingParameters
                          trainingData (schedule env) in
       (team_events team, Returns (Some (shared_forest team)))
     else ret None) ;;
  good <- ofstream_open env (Options.ForestName options) ;;
  match forest with
  | None => throw NullForest
  | Some forest => Serialize forest (Options.ForestName options) good
  end.

(** *** [mexFunction] *)

(** The chain of [if]s of [mexFunction]: which instance of
    [main_function], if any, the options select. *)
Definition instantiation (options : Options.t) : option FeatureResponse :=
  if WeakLearner_eqb (Options.WeakLearner options) AxisAligned then
    Some AxisAlignedFeatureResponse
  else if WeakLearner_eqb (Options.WeakLearner options) RandomHyperplane
          && negb (Options.FeatureScaling options) then
    Some RandomHyperplaneFeatureResponse
  else if WeakLearner_eqb (Options.WeakLearner options) RandomHyperplane
          && Options.FeatureScaling options then
    Some RandomHyperplaneFeatureResponseNormalized
  else None.

(** [mexFunction], once [Options options(params)] is constructed. *)
Definition mexFunction (env : Environment Random)
           (trainingData : DataPointCollection Stats) (options : Options.t)
  : M unit :=
  match instantiation options with
  | Some F => main_function F env trainingData options
  | None => ret tt
  end.

(** *** Reading a trace *)

Definition printed (tr : list (Event Stats Tree)) : list (Message Stats) :=
  flat_map (fun e => match e with Printed m => [m] | _ => [] end) tr.

(** Everything but the printing. *)
Definition calls (tr : list (Event Stats Tree)) : list (Event Stats Tree) :=
  flat_map (fun e => match e with Printed _ => [] | _ => [e] end) tr.

Definition TrainForest_calls (tr : list (Event Stats Tree))
  : list (TrainingParameters.t * ClassificationTrainingContext Stats
          * VerboseLevel) :=
  flat_map (fun e => match e with
                     | Call_TrainForest p c l => [(p, c, l)]
                     | _ => []
                     end) tr.

(** The loop indices [t] for which [TrainTree] was called, in the order of
    the calls, with the lock holder at the time of the call. *)
Definition TrainTree_calls (tr : list (Event Stats Tree))
  : list (nat * option nat) :=
  flat_map (fun e => match e with
                     | Call_TrainTree t _ _ h => [(t, h)]
                     | _ => []
                     end) tr.

(** The same for [AddTree], with the tree that was added. *)
Definition AddTree_calls (tr : list (Event Stats Tree))
  : list (nat * Tree * option nat) :=
  flat_map (fun e => match e with
                     | Call_AddTree t tree h => [(t, tree, h)]
                     | _ => []
                     end) tr.

(** The training parameters and the context handed to the trainer, one
    pair per [TrainForest] or [TrainTree] call. *)
Definition trainer_inputs (tr : list (Event Stats Tree))
  : list (TrainingParameters.t * ClassificationTrainingContext Stats) :=
  flat_map (fun e => match e with
                     | Call_TrainForest p c _ => [(p, c)]
                     | Call_TrainTree _ p c _ => [(p, c)]
                     | _ => []
                     end) tr.

(** The forests handed to [Serialize], with the state of the stream. *)
Definition serialized (tr : list (Event Stats Tree))
  : list (Forest Tree * bool) :=
  flat_map (fun e => match e with
                     | Call_Serialize f g => [(f, g)]
                     | _ => []
                     end) tr.

(** The openings of the output stream. *)
Definition opened (tr : list (Event Stats Tree)) : list (string * bool) :=
  flat_map (fun e => match e with
                     | Opened path g => [(path, g)]
                     | _ => []
                     end) tr.

(** What the run left in the output file. *)
Definition artifact (tr : list (Event Stats Tree))
  : list (string * list Byte.byte) :=
  flat_map (fun e => match e with
                     | Written path bytes => [(path, bytes)]
                     | _ => []
                     end) tr.

(** *** Names for what [main_function] computes on the way *)

(** [trainingParameters] after the five assignments. *)
Definition parameters_of (options : Options.t) : TrainingParameters.t :=
  {| TrainingParameters.MaxDecisionLevels :=
       Options.MaxDecisionLevels options;
     TrainingParameters.NumberOfCandidateFeatures :=
       Options.NumberOfCandidateFeatures options;
     TrainingParameters.NumberOfCandidateThresholdsPerFeature :=
       Options.NumberOfCandidateThresholdsPerFeature options;
     TrainingParameters.NumberOfTrees := Options.NumberOfTrees options;
     TrainingParameters.Verbose := false |}.

(** One entry per feature dimension, in order. *)
Definition all_stats (data : DataPointCollection Stats) : list Stats :=
  map (GetStats data) (seq 0 (Dimensions data)).

(** How far the body of a loop iteration still has to go. *)
Definition weight (p : Position Tree) : nat :=
  match p with
  | NotStarted => 4
  | Trained _ => 3
  | InCritical _ => 2
  | Appended => 1
  | Finished => 0
  end.

Definition remaining (n : nat) (team : Team Stats Tree Random) : nat :=
  list_sum (map (fun t => weight (position team t)) (seq 0 n)).

Definition in_critical (p : Position Tree) : bool :=
  match p with
  | InCritical _ | Appended => true
  | _ => false
  end.

(** The messages, the context, the number of workers and the events of
    training and saving, as [main_function] produces them one after the
    other. *)
Definition prelude_messages (data : DataPointCollection Stats)
           (options : Options.t) : list (Message Stats) :=
  if Options.Verbose options then
    [TrainingDataSummary (Dimensions data) (CountClasses data) (Count data);
     UsingWeakLearner (Options.WeakLearnerStr options)]
  else [].

Definition scaling_messages (data : DataPointCollection Stats)
           (options : Options.t) : list (Message Stats) :=
  if negb (Options.FeatureScaling options) then
    if Options.Verbose options
       && negb (WeakLearner_eqb (Options.WeakLearner options) AxisAligned)
    then [NoFeatureScaling] else []
  else if Options.Verbose options then
    map (fun d => FeatureLine d (GetStats data d)) (seq 0 (Dimensions data))
  else [].

Definition fallback_messages (options : Options.t) : list (Message Stats) :=
  if USE_OPENMP then []
  else if (1 <? Options.MaxThreads options)%Z then [NoOpenMPFallback]
  else [].

(** [featureStats] when the factory is built. *)
Definition featureStats_of (data : DataPointCollection Stats)
           (options : Options.t) : list Stats :=
  if Options.FeatureScaling options then all_stats data else [].

(** [classificationContext]. *)
Definition context_of (F : FeatureResponse)
           (data : DataPointCollection Stats) (options : Options.t)
  : ClassificationTrainingContext Stats :=
  {| nClasses := CountClasses data;
     featureFactory :=
       {| response := F;
          dimensions := Dimensions data;
          featureStats := featureStats_of data options |} |}.

(** [options.MaxThreads] when the forest is created. *)
Definition workers (options : Options.t) : Z :=
  if USE_OPENMP then Options.MaxThreads options else 1%Z.

(** The parallel loop of the run. *)
Definition team_of (F : FeatureResponse) (env : Environment Random)
           (data : DataPointCollection Stats) (options : Options.t)
  : Team Stats Tree Random :=
  omp_parallel_for (seed env) (context_of F data options)
                   (parameters_of options) data (schedule env).

Definition training_events (F : FeatureResponse) (env : Environment Random)
           (data : DataPointCollection Stats) (options : Options.t)
  : list (Event Stats Tree) :=
  if (workers options =? 1)%Z then
    [Printed Using1Thread;
     Call_TrainForest (parameters_of options) (context_of F data options)
                      Silent]
  else
    (if Options.Verbose options then
       [Printed (UsingOpenMP (omp_get_num_threads env)
                             (omp_get_max_threads env))]
     else [])
    ++ team_events (team_of F env data options).

(** The forest [forest] points to after training. *)
Definition trained_forest (F : FeatureResponse) (env : Environment Random)
           (data : DataPointCollection Stats) (options : Options.t)
  : Forest Tree :=
  if (workers options =? 1)%Z then
    fst (TrainForest (seed env) (parameters_of options)
                     (context_of F data options) data)
  else shared_forest (team_of F env data options).

Definition saving_events (env : Environment Random) (options : Options.t)
           (forest : Forest Tree) : list (Event Stats Tree) :=
  let path := Options.ForestName options in
  let good := ofstream_opens env path in
  [Opened path good; Call_Serialize forest good]
  ++ (if good then [Written path (fst (Forest_Serialize forest good))]
      else []).

Definition trained_indices (tr : list (Event Stats Tree)) : list nat :=
  map fst (TrainTree_calls tr).

Definition added_indices (tr : list (Event Stats Tree)) : list nat :=
  map (fun c => fst (fst c)) (AddTree_calls tr).

Definition added_trees (tr : list (Event Stats Tree)) : list Tree :=
  map (fun c => snd (fst c)) (AddTree_calls tr).

(** What holds of the parallel loop at every moment.  The lock is held
    exactly by the iteration that stands between [omp_set_lock] and
    [omp_unset_lock]; an iteration has called [TrainTree] as soon as it has
    started and [AddTree] once it has passed its critical section, each at
    most once; the forest holds the trees added so far. *)
Record loop_invariant (context : ClassificationTrainingContext Stats)
       (parameters : TrainingParameters.t) (n : nat)
       (team : Team Stats Tree Random) : Prop := {
  inv_holder :
    forall t, writelock team = Some t ->
              t < n /\ in_critical (position team t) = true;
  inv_critical :
    forall t, t < n -> in_critical (position team t) = true ->
              writelock team = Some t;
  inv_trained :
    forall t, In t (trained_indices (team_events team)) <->
              t < n /\ position team t <> NotStarted;
  inv_trained_once : NoDup (trained_indices (team_events team));
  inv_added :
    forall t, In t (added_indices (team_events team)) <->
              t < n /\ (position team t = Appended
                        \/ position team t = Finished);
  inv_added_once : NoDup (added_indices (team_events team));
  inv_forest : shared_forest team = added_trees (team_events team);
  inv_train_unlocked :
    forall t h, In (t, h) (TrainTree_calls (team_events team)) ->
                h <> Some t;
  inv_add_locked :
    forall t tree h, In (t, tree, h) (AddTree_calls (team_events team)) ->
                     h = Some t;
  inv_inputs :
    forall pc, In pc (trainer_inputs (team_events team)) ->
               pc = (parameters, context);
  inv_quiet :
    printed (team_events team) = [] /\
    TrainForest_calls (team_events team) = [] /\
    serialized (team_events team) = [] /\
    opened (team_events team) = [] /\
    artifact (team_events team) = []
}.


(** *** More readings of the parallel loop *)

(** The uses of the lock and the [AddTree] calls of a trace. *)
Definition lock_trace (tr : list (Event Stats Tree))
  : list (Event Stats Tree) :=
  flat_map (fun e => match e with
                     | Lock_set _ | Call_AddTree _ _ _ | Lock_unset _ => [e]
                     | _ => []
                     end) tr.

(** One critical section, as iteration [fst c] goes through it with its
    tree [snd c]. *)
Definition critical_section (c : nat * Tree) : list (Event Stats Tree) :=
  [Lock_set (fst c);
   Call_AddTree (fst c) (snd c) (Some (fst c));
   Lock_unset (fst c)].

(** Where the lock stands when the critical sections [done] are over:
    free; taken by an iteration that has not added its tree yet; or taken
    by an iteration that has. *)
Inductive lock_state (team : Team Stats Tree Random)
          (done : list (nat * Tree)) : Prop :=
| lock_free :
    writelock team = None ->
    lock_trace (team_events team) = flat_map critical_section done ->
    shared_forest team = map snd done ->
    lock_state team done
| lock_taken (t : nat) (tree : Tree) :
    writelock team = Some t ->
    position team t = InCritical tree ->
    lock_trace (team_events team)
    = flat_map critical_section done ++ [Lock_set t] ->
    shared_forest team = map snd done ->
    lock_state team done
| lock_added (t : nat) (tree : Tree) :
    writelock team = Some t ->
    position team t = Appended ->
    lock_trace (team_events team)
    = flat_map critical_section done
      ++ [Lock_set t; Call_AddTree t tree (Some t)] ->
    shared_forest team = map snd done ++ [tree] ->
    lock_state team done.

(** The feature lines among the messages: the dimension and the
    statistics each of them reports. *)
Definition feature_lines (msgs : list (Message Stats))
  : list (nat * Stats) :=
  flat_map (fun m => match m with
                     | FeatureLine d s => [(d, s)]
                     | _ => []
                     end) msgs.

(** ** The parallel loop *)

Lemma move_same (pos : nat -> Position Tree) (t : nat) (p : Position Tree) :
  move pos t p t = p.
Proof. unfold move. now rewrite Nat.eqb_refl. Qed.

Lemma move_other (pos : nat -> Position Tree) (t t' : nat)
      (p : Position Tree) :
  t' <> t -> move pos t p t' = pos t'.
Proof.
  intros Hne. unfold move.
  destruct (Nat.eqb_spec t' t); [contradiction | reflexivity].
Qed.

(** Moving one iteration one step forward takes one off the work left. *)
Lemma list_sum_move (pos : nat -> Position Tree) (t : nat)
      (p : Position Tree) (l : list nat) :
  NoDup l -> In t l -> weight p + 1 = weight (pos t) ->
  list_sum (map (fun t' => weight (move pos t p t')) l) + 1 =
  list_sum (map (fun t' => weight (pos t')) l).
Proof.
  intros Hnd Hin Hw. induction l as [|a l IH]; [destruct Hin|].
  inversion Hnd as [|? ? Hnotin Hnd']; subst. simpl.
  destruct Hin as [-> | Hin].
  - rewrite move_same.
    assert (Hsame : map (fun t' => weight (move pos t p t')) l =
                    map (fun t' => weight (pos t')) l).
    { apply map_ext_in. intros t' Ht'. rewrite move_other; [reflexivity|].
      intros ->. contradiction. }
    rewrite Hsame. lia.
  - rewrite move_other by (intros ->; contradiction).
    specialize (IH Hnd' Hin). lia.
Qed.

Lemma list_sum_zero (f : nat -> nat) (l : list nat) :
  list_sum (map f l) = 0 -> forall t, In t l -> f t = 0.
Proof.
  induction l as [|a l IH]; simpl; intros Hs t Hin; [destruct Hin|].
  destruct Hin as [-> | Hin]; [lia | apply IH; [lia | exact Hin]].
Qed.

Lemma list_sum_positive (f : nat -> nat) (l : list nat) :
  0 < list_sum (map f l) -> exists t, In t l /\ 0 < f t.
Proof.
  induction l as [|a l IH]; simpl; intros Hs; [lia|].
  destruct (f a) eqn:Ea.
  - destruct IH as [t [Hin Ht]]; [lia|]. exists t. auto.
  - exists a. split; [auto | lia].
Qed.

Lemma list_sum_const (c k : nat) :
  forall from, list_sum (map (fun _ => c) (seq from k)) = c * k.
Proof.
  induction k as [|k IH]; intros from; simpl; [lia | rewrite IH; lia].
Qed.

Section Loop.

Variable context : ClassificationTrainingContext Stats.
Variable parameters : TrainingParameters.t.
Variable data : DataPointCollection Stats.
Variable n : nat.

Local Abbreviation go := (advance context parameters data).
Local Abbreviation step := (omp_step context parameters data n).
Local Abbreviation run := (omp_run context parameters data n).
Local Abbreviation invariant := (loop_invariant context parameters n).

(** A step of the team is a step of one enabled iteration, or nothing when
    no iteration can move. *)
Lemma omp_step_cases (choice : nat) (team : Team Stats Tree Random) :
  (filter (enabled team) (seq 0 n) = [] /\ step choice team = team) \/
  (exists t, t < n /\ enabled team t = true /\
             step choice team = go t team).
Proof.
  unfold omp_step.
  destruct (filter (enabled team) (seq 0 n)) as [|t0 rest] eqn:Ef.
  - left. split; reflexivity.
  - right.
    set (t := nth (choice mod List.length (t0 :: rest)) (t0 :: rest) t0).
    assert (Hin : In t (t0 :: rest)).
    { apply nth_In. apply Nat.mod_upper_bound. simpl. lia. }
    rewrite <- Ef in Hin. apply filter_In in Hin. destruct Hin as [Hseq Hen].
    apply in_seq in Hseq. exists t. repeat split; [lia | exact Hen].
Qed.

Lemma loop_invariant_start (random : Random) :
  invariant (team_start random).
Proof.
  constructor; simpl.
  - discriminate.
  - discriminate.
  - intros t. split; [intros [] | intros [_ H]; now elim H].
  - constructor.
  - intros t. split; [intros [] | intros [_ [H|H]]; discriminate].
  - constructor.
  - reflexivity.
  - intros t h [].
  - intros t tree h [].
  - intros pc [].
  - repeat split.
Qed.

(** Reading the trace after one more event. *)
Ltac read_trace :=
  unfold trained_indices, added_indices, added_trees, printed,
    TrainForest_calls, TrainTree_calls, AddTree_calls, trainer_inputs,
    serialized, opened, artifact in *;
  rewrite ?flat_map_app; simpl;
  rewrite ?app_nil_r, ?map_app; simpl.

(** Looking at an iteration [t'] after iteration [t] has moved. *)
Ltac at_iteration t' t :=
  destruct (Nat.eq_dec t' t) as [-> | ?];
  [rewrite ?move_same in * | rewrite ?move_other in * by assumption].

Lemma loop_invariant_advance (team : Team Stats Tree Random) (t : nat) :
  invariant team -> t < n -> enabled team t = true ->
  invariant (go t team).
Proof.
  intros Inv Ht Hen. unfold advance, enabled in *.
  destruct (position team t) as [|tree|tree| |] eqn:Epos.
  - (* [TrainTree] *)
    destruct (TrainTree (shared_random team) context parameters data)
      as [tree random'].
    assert (Hfree : writelock team <> Some t).
    { intros Hl. apply (inv_holder Inv) in Hl. rewrite Epos in Hl.
      simpl in Hl. destruct Hl. discriminate. }
    destruct Inv. constructor; simpl.
    + intros t' Hl. at_iteration t' t; [contradiction | auto].
    + intros t' Ht' Hc. at_iteration t' t; [discriminate | auto].
    + intros t'. read_trace. rewrite in_app_iff. simpl.
      at_iteration t' t.
      * split; [intros _; split; [assumption | discriminate] | auto].
      * rewrite inv_trained0.
        split; [intros [H | [H | []]]; [exact H | congruence] | auto].
    + read_trace.
      apply NoDup_app; [assumption | repeat constructor; intros [] | ].
      intros t' Hin [<- | []]. apply inv_trained0 in Hin.
      destruct Hin as [_ Hin]. now elim Hin.
    + intros t'. read_trace. rewrite inv_added0.
      at_iteration t' t; [|tauto].
      rewrite Epos. split; intros [_ [H|H]]; discriminate.
    + read_trace. assumption.
    + read_trace. assumption.
    + intros t' h. read_trace. rewrite in_app_iff. simpl.
      intros [H | [H | []]]; [eauto|]. inversion H; subst. assumption.
    + read_trace. assumption.
    + intros pc. read_trace. rewrite in_app_iff. simpl.
      intros [H | [H | []]]; [auto | now symmetry].
    + read_trace. assumption.
  - (* [omp_set_lock] *)
    destruct (writelock team) as [holder|] eqn:Elock; [discriminate|].
    destruct Inv. constructor; simpl.
    + intros t' Hl. inversion Hl; subst. rewrite move_same. auto.
    + intros t' Ht' Hc. at_iteration t' t; [reflexivity|].
      apply inv_critical0 in Hc; [congruence | assumption].
    + intros t'. read_trace. rewrite inv_trained0.
      at_iteration t' t; [|tauto].
      rewrite Epos. split; intros [H _]; (split; [exact H | discriminate]).
    + read_trace. assumption.
    + intros t'. read_trace. rewrite inv_added0.
      at_iteration t' t; [|tauto].
      rewrite Epos. split; intros [_ [H|H]]; discriminate.
    + read_trace. assumption.
    + read_trace. assumption.
    + read_trace. assumption.
    + read_trace. assumption.
    + read_trace. assumption.
    + read_trace. assumption.
  - (* [AddTree] *)
    assert (Hheld : writelock team = Some t).
    { apply (inv_critical Inv); [assumption | now rewrite Epos]. }
    destruct Inv. constructor; simpl.
    + intros t' Hl. at_iteration t' t; [auto | auto].
    + intros t' Ht' Hc. at_iteration t' t; [assumption | auto].
    + intros t'. read_trace. rewrite inv_trained0.
      at_iteration t' t; [|tauto].
      rewrite Epos. split; intros [H _]; (split; [exact H | discriminate]).
    + read_trace. assumption.
    + intros t'. read_trace. rewrite in_app_iff. simpl.
      at_iteration t' t.
      * split; [intros _; split; [assumption | now left] | auto].
      * rewrite inv_added0.
        split; [intros [H | [H | []]]; [exact H | congruence] | auto].
    + read_trace.
      apply NoDup_app; [assumption | repeat constructor; intros [] | ].
      intros t' Hin [<- | []]. apply inv_added0 in Hin.
      rewrite Epos in Hin. destruct Hin as [_ [H|H]]; discriminate.
    + read_trace. unfold AddTree. now rewrite inv_forest0.
    + read_trace. assumption.
    + intros t' tree' h. read_trace. rewrite in_app_iff. simpl.
      intros [H | [H | []]]; [eauto|]. inversion H; subst. assumption.
    + read_trace. assumption.
    + read_trace. assumption.
  - (* [omp_unset_lock] *)
    assert (Hheld : writelock team = Some t).
    { apply (inv_critical Inv); [assumption | now rewrite Epos]. }
    destruct Inv. constructor; simpl.
    + discriminate.
    + intros t' Ht' Hc. at_iteration t' t; [discriminate|].
      apply inv_critical0 in Hc; [congruence | assumption].
    + intros t'. read_trace. rewrite inv_trained0.
      at_iteration t' t; [|tauto].
      rewrite Epos. split; intros [H _]; (split; [exact H | discriminate]).
    + read_trace. assumption.
    + intros t'. read_trace. rewrite inv_added0.
      at_iteration t' t; [|tauto].
      rewrite Epos. split; intros [H _]; (split; [exact H | auto]).
    + read_trace. assumption.
    + read_trace. assumption.
    + read_trace. assumption.
    + read_trace. assumption.
    + read_trace. assumption.
    + read_trace. assumption.
  - discriminate.
Qed.

Lemma loop_invariant_step (choice : nat) (team : Team Stats Tree Random) :
  invariant team -> invariant (step choice team).
Proof.
  intros Inv.
  destruct (omp_step_cases choice team) as [[_ ->] | [t [Ht [Hen ->]]]];
    [assumption | now apply loop_invariant_advance].
Qed.

Lemma loop_invariant_run (steps : nat) :
  forall (sched : list nat) (team : Team Stats Tree Random),
    invariant team -> invariant (run steps sched team).
Proof.
  induction steps as [|steps IH]; intros sched team Inv; simpl;
    [assumption | apply IH, loop_invariant_step, Inv].
Qed.

(** *** The loop comes to its end *)

Lemma remaining_advance (team : Team Stats Tree Random) (t : nat) :
  t < n -> enabled team t = true ->
  remaining n (go t team) + 1 = remaining n team.
Proof.
  intros Ht Hen. unfold remaining, advance, enabled in *.
  assert (Hin : In t (seq 0 n)) by (apply in_seq; lia).
  pose proof (seq_NoDup n 0) as Hnd.
  destruct (position team t) as [|tree|tree| |] eqn:Epos;
    try discriminate;
    try destruct (TrainTree (shared_random team) context parameters data);
    simpl; apply list_sum_move; try assumption; rewrite Epos; reflexivity.
Qed.

(** As long as some iteration is unfinished, some iteration can move: the
    holder of the lock if there is one, any unfinished one otherwise. *)
Lemma enabled_exists (team : Team Stats Tree Random) :
  invariant team -> 0 < remaining n team ->
  filter (enabled team) (seq 0 n) <> [].
Proof.
  intros Inv Hrem. unfold remaining in Hrem.
  apply list_sum_positive in Hrem. destruct Hrem as [t [Hin Hw]].
  destruct (writelock team) as [holder|] eqn:Elock.
  - destruct (inv_holder Inv Elock) as [Hlt Hcrit].
    assert (Hen : In holder (filter (enabled team) (seq 0 n))).
    { apply filter_In. split; [apply in_seq; lia|]. unfold enabled.
      destruct (position team holder); simpl in Hcrit;
        try discriminate; reflexivity. }
    intros Hnil. rewrite Hnil in Hen. destruct Hen.
  - assert (Hen : In t (filter (enabled team) (seq 0 n))).
    { apply filter_In. split; [assumption|]. unfold enabled. rewrite Elock.
      destruct (position team t); simpl in Hw; try reflexivity; lia. }
    intros Hnil. rewrite Hnil in Hen. destruct Hen.
Qed.

Lemma remaining_step (choice : nat) (team : Team Stats Tree Random) :
  invariant team -> 0 < remaining n team ->
  remaining n (step choice team) + 1 = remaining n team.
Proof.
  intros Inv Hrem.
  destruct (omp_step_cases choice team) as [[Hnil _] | [t [Ht [Hen ->]]]].
  - now apply enabled_exists in Hnil.
  - now apply remaining_advance.
Qed.

Lemma remaining_run (steps : nat) :
  forall (sched : list nat) (team : Team Stats Tree Random),
    invariant team -> steps <= remaining n team ->
    remaining n (run steps sched team) + steps = remaining n team.
Proof.
  induction steps as [|steps IH]; intros sched team Inv Hle; simpl;
    [lia|].
  pose proof (remaining_step (hd 0 sched) Inv ltac:(lia)) as Hstep.
  pose proof (IH (tl sched) _ (loop_invariant_step (hd 0 sched) Inv)
                 ltac:(lia)) as Hrest.
  lia.
Qed.

Lemma remaining_start (random : Random) :
  remaining n (team_start random) = 4 * n.
Proof.
  unfold remaining. simpl. apply (list_sum_const 4).
Qed.

Lemma all_finished (team : Team Stats Tree Random) :
  remaining n team = 0 ->
  forall t, t < n -> position team t = Finished.
Proof.
  intros Hrem t Ht. unfold remaining in Hrem.
  assert (Hin : In t (seq 0 n)) by (apply in_seq; lia).
  pose proof (@list_sum_zero _ _ Hrem t Hin) as Hw. simpl in Hw.
  destruct (position team t); simpl in Hw; try reflexivity; lia.
Qed.

(** After [4 * n] steps, whatever the schedule, every iteration has gone
    through its four steps. *)
Lemma loop_ends (sched : list nat) (random : Random) :
  let team := run (4 * n) sched (team_start random) in
  invariant team /\ forall t, t < n -> position team t = Finished.
Proof.
  intros team.
  assert (Inv : invariant team)
    by apply loop_invariant_run, loop_invariant_start.
  split; [assumption|]. apply all_finished.
  pose proof (@remaining_run (4 * n) sched (team_start random)
                (loop_invariant_start random)) as Hrun.
  rewrite remaining_start in Hrun. specialize (Hrun (le_n _)).
  fold team in Hrun. lia.
Qed.

End Loop.

(** ** [main_function], step by step *)

Lemma stats_loop_eq (verbose : bool) (data : DataPointCollection Stats)
      (k : nat) :
  forall acc : list Stats,
    stats_loop verbose data (seq (length acc) k) acc =
    (map (@Printed Stats Tree)
         (if verbose then
            map (fun d => FeatureLine d (GetStats data d))
                (seq (length acc) k)
          else []),
     Returns (acc ++ map (GetStats data) (seq (length acc) k))).
Proof.
  induction k as [|k IH]; intros acc; simpl.
  - destruct verbose; simpl; now rewrite app_nil_r.
  - assert (Hlen : S (length acc)
                   = length (acc ++ [GetStats data (length acc)]))
      by (rewrite length_app; simpl; lia).
    rewrite Hlen, IH, nth_middle, <- Hlen, <- app_assoc.
    destruct verbose; reflexivity.
Qed.

(** The whole run written out: the messages, the training, the saving, and
    how it ends. *)
Lemma main_function_eq (F : FeatureResponse) (env : Environment Random)
      (data : DataPointCollection Stats) (options : Options.t) :
  main_function F env data options =
  (map (@Printed Stats Tree)
       (prelude_messages data options ++ scaling_messages data options
        ++ fallback_messages options)
   ++ training_events F env data options
   ++ saving_events env options (trained_forest F env data options),
   if snd (Forest_Serialize (trained_forest F env data options)
                            (ofstream_opens env (Options.ForestName options)))
   then Throws SerializeThrew else Returns tt).
Proof.
  unfold main_function, prelude_messages, scaling_messages,
    fallback_messages, training_events, trained_forest, saving_events,
    team_of, workers, context_of, featureStats_of, all_stats.
  fold (parameters_of options).
  pose proof (stats_loop_eq (Options.Verbose options) data
                            (Dimensions data) []) as Hstats.
  simpl in Hstats. rewrite Hstats. clear Hstats.
  unfold Serialize, ofstream_open, bind, when, mexPrintf, emit, ret, throw.
  destruct USE_OPENMP, (Options.FeatureScaling options),
    (WeakLearner_eqb (Options.WeakLearner options) AxisAligned),
    (1 <? Options.MaxThreads options)%Z eqn:Hlt,
    (Options.MaxThreads options =? 1)%Z eqn:Heq;
    simpl; rewrite ?Heq; simpl;
    destruct (Options.Verbose options); simpl;
    match goal with
    | |- context [Forest_Serialize ?f ?g] =>
        destruct (Forest_Serialize f g) as [bytes [|]]
    end;
    destruct (ofstream_opens env (Options.ForestName options));
    cbn [fst snd app map]; rewrite ?map_app, ?app_nil_r, <- ?app_assoc;
    cbn [fst snd app map]; reflexivity.
Qed.

(** ** Reading the trace of a run *)

Lemma printed_messages (l : list (Message Stats)) :
  printed (map (@Printed Stats Tree) l) = l.
Proof.
  unfold printed. induction l as [|m l IH]; simpl; [|rewrite IH];
    reflexivity.
Qed.

(** Messages are no calls. *)
Lemma messages_are_quiet (l : list (Message Stats)) :
  calls (map (@Printed Stats Tree) l) = [] /\
  TrainForest_calls (map (@Printed Stats Tree) l) = [] /\
  TrainTree_calls (map (@Printed Stats Tree) l) = [] /\
  AddTree_calls (map (@Printed Stats Tree) l) = [] /\
  trainer_inputs (map (@Printed Stats Tree) l) = [] /\
  serialized (map (@Printed Stats Tree) l) = [] /\
  opened (map (@Printed Stats Tree) l) = [] /\
  artifact (map (@Printed Stats Tree) l) = [].
Proof.
  unfold calls, TrainForest_calls, TrainTree_calls, AddTree_calls,
    trainer_inputs, serialized, opened, artifact.
  induction l as [|m l IH]; simpl; [|exact IH]. repeat split.
Qed.

(** Splitting a reading along the parts of a run. *)
Ltac split_trace :=
  unfold trained_indices, added_indices, added_trees, printed, calls,
    TrainForest_calls, TrainTree_calls, AddTree_calls, trainer_inputs,
    serialized, opened, artifact in *;
  rewrite ?flat_map_app.


(** The parallel loop at its end: one [TrainTree] and one [AddTree] per
    index, and as many trees in the forest. *)
Lemma omp_parallel_for_result (random : Random)
      (context : ClassificationTrainingContext Stats)
      (parameters : TrainingParameters.t) (data : DataPointCollection Stats)
      (sched : list nat) :
  let n := Z.to_nat (TrainingParameters.NumberOfTrees parameters) in
  let team := omp_parallel_for random context parameters data sched in
  loop_invariant context parameters n team /\
  Permutation (trained_indices (team_events team)) (seq 0 n) /\
  Permutation (added_indices (team_events team)) (seq 0 n) /\
  length (shared_forest team) = n.
Proof.
  intros n team.
  assert (Hend : loop_invariant context parameters n team /\
                 forall t, t < n -> position team t = Finished)
    by exact (@loop_ends context parameters data n sched random).
  destruct Hend as [Inv Hfin].
  assert (Htrained : Permutation (trained_indices (team_events team))
                                 (seq 0 n)).
  { apply NoDup_Permutation;
      [apply (inv_trained_once Inv) | apply seq_NoDup |].
    intros t. rewrite (inv_trained Inv), in_seq. split.
    - intros [Ht _]. lia.
    - intros Ht. split; [lia|]. rewrite Hfin by lia. discriminate. }
  assert (Hadded : Permutation (added_indices (team_events team))
                               (seq 0 n)).
  { apply NoDup_Permutation;
      [apply (inv_added_once Inv) | apply seq_NoDup |].
    intros t. rewrite (inv_added Inv), in_seq. split.
    - intros [Ht _]. lia.
    - intros Ht. split; [lia|]. right. apply Hfin. lia. }
  split; [exact Inv|]. split; [exact Htrained|]. split; [exact Hadded|].
  change (length (shared_forest team) = n).
  rewrite (inv_forest Inv). unfold added_trees.
  apply Permutation_length in Hadded. unfold added_indices in Hadded.
  rewrite length_map in *. now rewrite length_seq in Hadded.
Qed.

(** A trace without messages is all calls. *)
Lemma calls_quiet (tr : list (Event Stats Tree)) :
  printed tr = [] -> calls tr = tr.
Proof.
  unfold printed, calls. induction tr as [|e tr IH]; simpl; [reflexivity|].
  destruct e; simpl; intros H; try discriminate; now rewrite IH.
Qed.

Section Run.

Variable F : FeatureResponse.
Variable env : Environment Random.
Variable data : DataPointCollection Stats.
Variable options : Options.t.

Local Abbreviation the_run := (main_function F env data options).
Local Abbreviation the_team := (team_of F env data options).
Local Abbreviation path := (Options.ForestName options).
Local Abbreviation good := (ofstream_opens env (Options.ForestName options)).
Local Abbreviation forest := (trained_forest F env data options).

Lemma team_of_result :
  let n := Z.to_nat (Options.NumberOfTrees options) in
  loop_invariant (context_of F data options) (parameters_of options) n
                 the_team /\
  Permutation (trained_indices (team_events the_team)) (seq 0 n) /\
  Permutation (added_indices (team_events the_team)) (seq 0 n) /\
  length (shared_forest the_team) = n.
Proof.
  exact (omp_parallel_for_result (seed env) (context_of F data options)
                                 (parameters_of options) data (schedule env)).
Qed.

Lemma run_outcome :
  outcome the_run =
  if snd (Forest_Serialize forest good) then Throws SerializeThrew
  else Returns tt.
Proof. unfold outcome. now rewrite main_function_eq. Qed.

(** The run as [main_function_eq] gives it, with what is known of its
    messages and of its parallel loop. *)
Ltac open_run :=
  unfold trace; rewrite main_function_eq; cbn [fst];
  pose proof (messages_are_quiet
                (prelude_messages data options
                 ++ scaling_messages data options
                 ++ fallback_messages options))
    as (Hm1 & Hm2 & Hm3 & Hm4 & Hm5 & Hm6 & Hm7 & Hm8);
  pose proof (printed_messages
                (prelude_messages data options
                 ++ scaling_messages data options
                 ++ fallback_messages options)) as Hm0;
  destruct team_of_result as [Inv _];
  pose proof (inv_quiet Inv) as (Hq1 & Hq2 & Hq3 & Hq4 & Hq5);
  pose proof (inv_inputs Inv) as Hinputs;
  unfold training_events, saving_events;
  split_trace;
  rewrite ?Hm0, ?Hm1, ?Hm2, ?Hm3, ?Hm4, ?Hm5, ?Hm6, ?Hm7, ?Hm8;
  destruct (workers options =? 1)%Z;
  rewrite ?flat_map_app, ?Hq1, ?Hq2, ?Hq3, ?Hq4, ?Hq5;
  destruct (Options.Verbose options), good;
  cbn [flat_map app]; rewrite ?app_nil_r.

Lemma run_printed :
  printed (trace the_run) =
  prelude_messages data options ++ scaling_messages data options
  ++ fallback_messages options
  ++ (if (workers options =? 1)%Z then [Using1Thread]
      else if Options.Verbose options then
        [UsingOpenMP (omp_get_num_threads env) (omp_get_max_threads env)]
      else []).
Proof. open_run; rewrite <- ?app_assoc, ?app_nil_r; reflexivity. Qed.

Lemma run_TrainForest_calls :
  TrainForest_calls (trace the_run) =
  if (workers options =? 1)%Z then
    [(parameters_of options, context_of F data options, Silent)]
  else [].
Proof. open_run; reflexivity. Qed.

Lemma run_TrainTree_calls :
  TrainTree_calls (trace the_run) =
  if (workers options =? 1)%Z then []
  else TrainTree_calls (team_events the_team).
Proof. open_run; reflexivity. Qed.

Lemma run_AddTree_calls :
  AddTree_calls (trace the_run) =
  if (workers options =? 1)%Z then []
  else AddTree_calls (team_events the_team).
Proof. open_run; reflexivity. Qed.

Lemma run_trainer_inputs :
  forall pc, In pc (trainer_inputs (trace the_run)) ->
             pc = (parameters_of options, context_of F data options).
Proof.
  open_run; intros pc Hin; try (apply Hinputs; exact Hin);
    destruct Hin as [<- | []]; reflexivity.
Qed.

Lemma run_serialized : serialized (trace the_run) = [(forest, good)].
Proof. open_run; reflexivity. Qed.

Lemma run_opened : opened (trace the_run) = [(path, good)].
Proof. open_run; reflexivity. Qed.


Lemma run_calls :
  calls (trace the_run) =
  (if (workers options =? 1)%Z then
     [Call_TrainForest (parameters_of options) (context_of F data options)
                       Silent]
   else team_events the_team)
  ++ saving_events env options forest.
Proof.
  destruct team_of_result as [Inv' _].
  pose proof (calls_quiet _ (proj1 (inv_quiet Inv'))) as Hcalls.
  unfold calls in Hcalls.
  open_run; rewrite ?Hcalls; reflexivity.
Qed.

End Run.

(** ** The run trains the trees it was asked for *)


(** ** The write lock *)

(** Every [AddTree] of a run is made by an iteration that holds
    [writelock]. *)
Lemma AddTree_inside_the_lock
      (F : FeatureResponse) (env : Environment Random)
      (data : DataPointCollection Stats) (options : Options.t)
      (t : nat) (tree : Tree) (holder : option nat) :
  In (t, tree, holder)
     (AddTree_calls (trace (main_function F env data options))) ->
  holder = Some t.
Proof.
  rewrite run_AddTree_calls.
  destruct (workers options =? 1)%Z; [intros [] |].
  destruct (team_of_result F env data options) as [Inv _].
  apply (inv_add_locked Inv).
Qed.

(** No [TrainTree] of a run is made by an iteration that holds
    [writelock]: the draws from [random] are outside the critical
    section. *)
Lemma TrainTree_outside_the_lock
      (F : FeatureResponse) (env : Environment Random)
      (data : DataPointCollection Stats) (options : Options.t)
      (t : nat) (holder : option nat) :
  In (t, holder)
     (TrainTree_calls (trace (main_function F env data options))) ->
  holder <> Some t.
Proof.
  rewrite run_TrainTree_calls.
  destruct (workers options =? 1)%Z; [intros [] |].
  destruct (team_of_result F env data options) as [Inv _].
  apply (inv_train_unlocked Inv).
Qed.

(** ** Without OpenMP *)

Lemma set_MaxThreads_same (options : Options.t) (n : Z)
      (F : FeatureResponse) (data : DataPointCollection Stats) :
  parameters_of (Options.set_MaxThreads options n) = parameters_of options /\
  context_of F data (Options.set_MaxThreads options n)
  = context_of F data options /\
  prelude_messages data (Options.set_MaxThreads options n)
  = prelude_messages data options /\
  scaling_messages data (Options.set_MaxThreads options n)
  = scaling_messages data options.
Proof. destruct options. repeat split. Qed.

(** C3.  In a build without OpenMP, a run asked for more than one worker
    prints the fallback message and is otherwise the run with
    [MaxThreads = 1]: the same calls ([TrainForest] once, no parallel loop,
    the same saving), the same messages but for the fallback message, and
    the same end; in particular the forest pointer is not null. *)
Theorem C3_without_openmp_one_worker
        (F : FeatureResponse) (env : Environment Random)
        (data : DataPointCollection Stats) (options : Options.t) :
  USE_OPENMP = false ->
  (1 < Options.MaxThreads options)%Z ->
  let run := main_function F env data options in
  let single :=
    main_function F env data (Options.set_MaxThreads options 1) in
  In NoOpenMPFallback (printed (trace run)) /\
  (exists before after,
      printed (trace run) = before ++ NoOpenMPFallback :: after /\
      printed (trace single) = before ++ after) /\
  calls (trace run) = calls (trace single) /\
  TrainForest_calls (trace run)
  = [(parameters_of options, context_of F data options, Silent)] /\
  TrainTree_calls (trace run) = [] /\
  outcome run = outcome single /\
  outcome run <> Throws NullForest.
Proof.
  clear F_CreateRandom.
  intros Homp Hmany run single. subst run single.
  destruct (set_MaxThreads_same options 1 F data)
    as (Hp & Hc & Hpre & Hscal).
  assert (Hw : forall o, workers o = 1%Z)
    by (intros o; unfold workers; now rewrite Homp).
  assert (Hforest : trained_forest F env data
                                   (Options.set_MaxThreads options 1)
                    = trained_forest F env data options).
  { unfold trained_forest. rewrite !Hw, Hp, Hc. reflexivity. }
  assert (Hfb : fallback_messages options = [NoOpenMPFallback]).
  { unfold fallback_messages. rewrite Homp.
    apply Z.ltb_lt in Hmany. now rewrite Hmany. }
  assert (Hfb1 : fallback_messages (Options.set_MaxThreads options 1) = []).
  { unfold fallback_messages. rewrite Homp. now destruct options. }
  assert (Hname : Options.ForestName (Options.set_MaxThreads options 1)
                  = Options.ForestName options) by now destruct options.
  rewrite !run_printed, !run_calls, !run_outcome, run_TrainForest_calls,
    run_TrainTree_calls, !Hw, Hfb, Hfb1, Hpre, Hscal, Hp, Hc, Hforest, Hname.
  unfold saving_events. rewrite Hname. simpl.
  split; [rewrite !in_app_iff; simpl; tauto|].
  split.
  - exists (prelude_messages data options ++ scaling_messages data options),
           [Using1Thread].
    now rewrite <- !app_assoc.
  - repeat split.
    destruct (snd (Forest_Serialize (trained_forest F env data options)
                     (ofstream_opens env (Options.ForestName options))));
      discriminate.
Qed.

(** ** Which feature response, with which statistics *)

Lemma WeakLearner_eqb_eq (a b : WeakLearnerType) :
  WeakLearner_eqb a b = true <-> a = b.
Proof.
  destruct a as [| |x], b as [| |y]; simpl; split; intros H;
    try reflexivity; try discriminate.
  - apply Z.eqb_eq in H. now subst.
  - inversion H. apply Z.eqb_refl.
Qed.

Lemma instantiation_normalized (options : Options.t) :
  instantiation options = Some RandomHyperplaneFeatureResponseNormalized <->
  Options.WeakLearner options = RandomHyperplane /\
  Options.FeatureScaling options = true.
Proof.
  unfold instantiation.
  destruct (Options.WeakLearner options) as [| |x],
    (Options.FeatureScaling options); simpl; split;
    try (intros H; discriminate H); try (intros [H1 H2]; discriminate);
    auto.
Qed.

Lemma all_stats_length (data : DataPointCollection Stats) :
  length (all_stats data) = Dimensions data.
Proof. unfold all_stats. now rewrite length_map, length_seq. Qed.

(** C4.  The normalized random hyperplane is instantiated exactly when
    [WeakLearner] is [RandomHyperplane] and [FeatureScaling] is on.  On
    data with at least one feature dimension, the [featureStats] of the
    factory the trainer then gets are non-empty: they hold one entry per
    feature dimension [d < F], in order, and this is what
    [F::CreateRandom] receives.  With [FeatureScaling] off the normalized
    response cannot be selected, so its precondition is never violated at
    a use site. *)
Theorem C4_normalized_gets_one_entry_per_dimension
        (env : Environment Random) (data : DataPointCollection Stats)
        (options : Options.t)
        (p : TrainingParameters.t) (c : ClassificationTrainingContext Stats) :
  0 < Dimensions data ->
  In (p, c) (trainer_inputs (trace (mexFunction env data options))) ->
  let factory := featureFactory c in
  (instantiation options = Some RandomHyperplaneFeatureResponseNormalized <->
   Options.WeakLearner options = RandomHyperplane /\
   Options.FeatureScaling options = true) /\
  (response factory = RandomHyperplaneFeatureResponseNormalized <->
   Options.WeakLearner options = RandomHyperplane /\
   Options.FeatureScaling options = true) /\
  (response factory = RandomHyperplaneFeatureResponseNormalized ->
   featureStats factory <> [] /\
   featureStats factory = map (GetStats data) (seq 0 (Dimensions data)) /\
   length (featureStats factory) = Dimensions data /\
   forall random,
     CreateRandom factory random =
     F_CreateRandom RandomHyperplaneFeatureResponseNormalized random
                    (Dimensions data)
                    (map (GetStats data) (seq 0 (Dimensions data)))) /\
  (Options.FeatureScaling options = false ->
   response factory <> RandomHyperplaneFeatureResponseNormalized /\
   featureStats factory = []).
Proof.
  intros Hpos Hin factory. unfold mexFunction in Hin.
  pose proof (instantiation_normalized options) as Hnorm.
  split; [exact Hnorm|].
  destruct (instantiation options) as [F|] eqn:Einst; [|destruct Hin].
  apply run_trainer_inputs in Hin. inversion Hin; subst p c. clear Hin.
  subst factory. unfold CreateRandom, context_of, featureStats_of.
  cbn [featureFactory response featureStats dimensions].
  fold (all_stats data).
  split; [|split].
  - rewrite <- Hnorm. split; congruence.
  - intros ->. destruct Hnorm as [Hnorm _].
    destruct (Hnorm eq_refl) as [_ Hfs]. rewrite Hfs.
    pose proof (all_stats_length data) as Hlen.
    repeat split; try assumption.
    intros Hnil. rewrite Hnil in Hlen. simpl in Hlen. lia.
  - intros Hfs. rewrite Hfs. split; [|reflexivity].
    intros ->. destruct Hnorm as [Hnorm _].
    destruct (Hnorm eq_refl) as [_ Hfs']. congruence.
Qed.

(** ** What the entry point does not check *)

(** The trainer is called whatever the options hold. *)
Lemma trainer_is_called
      (F : FeatureResponse) (env : Environment Random)
      (data : DataPointCollection Stats) (options : Options.t) :
  let run := main_function F env data options in
  (workers options = 1%Z ->
   TrainForest_calls (trace run)
   = [(parameters_of options, context_of F data options, Silent)]) /\
  (workers options <> 1%Z ->
   Permutation (trained_indices (trace run))
               (seq 0 (Z.to_nat (Options.NumberOfTrees options)))).
Proof.
  intros run. subst run.
  destruct (team_of_result F env data options) as (_ & Htrained & _).
  unfold trained_indices in *.
  rewrite run_TrainForest_calls, run_TrainTree_calls. split.
  - intros ->. reflexivity.
  - intros Hmany. apply Z.eqb_neq in Hmany. rewrite Hmany. exact Htrained.
Qed.

(** C6, as the code has it.  [main_function] validates none of the four
    counts.  They reach the trainer as they are in the options, positive
    or not: with one worker [TrainForest] is called with them; with several
    workers [TrainTree] is called with them, once for every index below
    [NumberOfTrees], and not at all when [NumberOfTrees] is not positive:
    the run then hands an empty forest to [Serialize].  [mexFunction]
    checks nothing before it calls [main_function]. *)
Theorem C6_counts_reach_the_trainer_unchecked
        (F : FeatureResponse) (env : Environment Random)
        (data : DataPointCollection Stats) (options : Options.t) :
  let run := main_function F env data options in
  (forall p c,
      In (p, c) (trainer_inputs (trace run)) ->
      TrainingParameters.MaxDecisionLevels p
      = Options.MaxDecisionLevels options /\
      TrainingParameters.NumberOfCandidateFeatures p
      = Options.NumberOfCandidateFeatures options /\
      TrainingParameters.NumberOfCandidateThresholdsPerFeature p
      = Options.NumberOfCandidateThresholdsPerFeature options /\
      TrainingParameters.NumberOfTrees p = Options.NumberOfTrees options) /\
  (workers options = 1%Z ->
   TrainForest_calls (trace run)
   = [(parameters_of options, context_of F data options, Silent)]) /\
  (workers options <> 1%Z ->
   Permutation (trained_indices (trace run))
               (seq 0 (Z.to_nat (Options.NumberOfTrees options)))) /\
  (workers options <> 1%Z -> (Options.NumberOfTrees options <= 0)%Z ->
   TrainTree_calls (trace run) = [] /\
   serialized (trace run)
   = [([], ofstream_opens env (Options.ForestName options))]) /\
  (instantiation options = Some F ->
   mexFunction env data options = run).
Proof.
  intros run. subst run.
  destruct (trainer_is_called F env data options) as [Hone Hmany].
  split; [|split; [|split; [|split]]].
  - intros p c Hin. apply run_trainer_inputs in Hin.
    inversion Hin. repeat split.
  - exact Hone.
  - exact Hmany.
  - intros Hw Hnone.
    destruct (team_of_result F env data options) as (_ & _ & _ & Hlen).
    specialize (Hmany Hw). unfold trained_indices in Hmany.
    replace (Z.to_nat (Options.NumberOfTrees options)) with 0 in * by lia.
    apply Permutation_sym, Permutation_nil, map_eq_nil in Hmany.
    split; [exact Hmany|].
    rewrite run_serialized. unfold trained_forest.
    apply Z.eqb_neq in Hw. rewrite Hw.
    apply length_zero_iff_nil in Hlen. now rewrite Hlen.
  - intros Hinst. unfold mexFunction. now rewrite Hinst.
Qed.

(** ** The output stream *)


(** ** The note on feature scaling *)

(** C8, as the code has it.  With [FeatureScaling] off, the note that no
    feature scaling is performed is printed exactly when [Verbose] is on
    and the weak learner is not [AxisAligned]; in every case the trainer
    gets a factory without feature statistics and is called as usual. *)
Theorem C8_note_only_when_verbose
        (F : FeatureResponse) (env : Environment Random)
        (data : DataPointCollection Stats) (options : Options.t) :
  Options.FeatureScaling options = false ->
  let run := main_function F env data options in
  (In NoFeatureScaling (printed (trace run)) <->
   Options.Verbose options = true /\
   Options.WeakLearner options <> AxisAligned) /\
  (forall p c,
      In (p, c) (trainer_inputs (trace run)) ->
      featureStats (featureFactory c) = []) /\
  (workers options = 1%Z ->
   TrainForest_calls (trace run)
   = [(parameters_of options, context_of F data options, Silent)]) /\
  (workers options <> 1%Z ->
   Permutation (trained_indices (trace run))
               (seq 0 (Z.to_nat (Options.NumberOfTrees options)))).
Proof.
  clear F_CreateRandom.
  intros Hfs run. subst run.
  destruct (trainer_is_called F env data options) as [Hone Hmany].
  split; [|split; [|split; assumption]].
  - rewrite run_printed.
    unfold prelude_messages, scaling_messages, fallback_messages.
    rewrite Hfs.
    pose proof (WeakLearner_eqb_eq (Options.WeakLearner options) AxisAligned)
      as Heq.
    destruct (Options.Verbose options),
      (WeakLearner_eqb (Options.WeakLearner options) AxisAligned),
      USE_OPENMP, (1 <? Options.MaxThreads options)%Z,
      (workers options =? 1)%Z; simpl;
      intuition (try discriminate; try congruence).
  - intros p c Hin. apply run_trainer_inputs in Hin. inversion Hin.
    unfold context_of, featureStats_of. simpl. now rewrite Hfs.
Qed.

(** ** An unknown weak learner *)

(** C9.  When the selector is neither [AxisAligned] nor
    [RandomHyperplane], [mexFunction] does nothing at all: it prints
    nothing, trains nothing, opens and writes no file, and returns. *)
Theorem C9_unknown_weak_learner_does_nothing
        (env : Environment Random) (data : DataPointCollection Stats)
        (options : Options.t) :
  Options.WeakLearner options <> AxisAligned ->
  Options.WeakLearner options <> RandomHyperplane ->
  trace (mexFunction env data options) = [] /\
  outcome (mexFunction env data options) = Returns tt.
Proof.
  intros Haa Hrh. unfold mexFunction, instantiation.
  destruct (WeakLearner_eqb (Options.WeakLearner options) AxisAligned)
    eqn:E1; [apply WeakLearner_eqb_eq in E1; contradiction|].
  destruct (WeakLearner_eqb (Options.WeakLearner options) RandomHyperplane)
    eqn:E2; [apply WeakLearner_eqb_eq in E2; contradiction|].
  split; reflexivity.
Qed.

(** ** The [Verbose] option *)

Lemma set_Verbose_same (options : Options.t) (b : bool)
      (F : FeatureResponse) (env : Environment Random)
      (data : DataPointCollection Stats) :
  parameters_of (Options.set_Verbose options b) = parameters_of options /\
  context_of F data (Options.set_Verbose options b)
  = context_of F data options /\
  workers (Options.set_Verbose options b) = workers options /\
  Options.ForestName (Options.set_Verbose options b)
  = Options.ForestName options.
Proof. destruct options. repeat split. Qed.

(** C10.  Whatever the options, the training parameters of every call of
    the trainer have [Verbose = false].  Switching the [Verbose] option
    changes nothing but what the entry point itself prints: the calls of
    the run (trainer, lock, stream, [Serialize]) with their arguments, and
    its end, are the same. *)
Theorem C10_trainer_is_never_verbose
        (F : FeatureResponse) (env : Environment Random)
        (data : DataPointCollection Stats) (options : Options.t) :
  let run := main_function F env data options in
  (forall p c,
      In (p, c) (trainer_inputs (trace run)) ->
      TrainingParameters.Verbose p = false) /\
  (forall b,
      let other :=
        main_function F env data (Options.set_Verbose options b) in
      calls (trace other) = calls (trace run) /\
      outcome other = outcome run).
Proof.
  intros run. subst run. split.
  - intros p c Hin. apply run_trainer_inputs in Hin. now inversion Hin.
  - intros b other. subst other.
    destruct (set_Verbose_same options b F env data)
      as (Hp & Hc & Hw & Hname).
    assert (Hteam : team_of F env data (Options.set_Verbose options b)
                    = team_of F env data options)
      by (unfold team_of; now rewrite Hp, Hc).
    assert (Hforest : trained_forest F env data
                                     (Options.set_Verbose options b)
                      = trained_forest F env data options)
      by (unfold trained_forest; now rewrite Hw, Hp, Hc, Hteam).
    rewrite !run_calls, !run_outcome, Hw, Hp, Hc, Hteam, Hforest, Hname.
    unfold saving_events. now rewrite Hname.
Qed.

(** ** More on the parallel loop *)

Section LoopMore.

Variable context : ClassificationTrainingContext Stats.
Variable parameters : TrainingParameters.t.
Variable data : DataPointCollection Stats.
Variable n : nat.

Local Abbreviation go' := (advance context parameters data).
Local Abbreviation step' := (omp_step context parameters data n).
Local Abbreviation run' := (omp_run context parameters data n).
Local Abbreviation invariant' := (loop_invariant context parameters n).

(** A property kept by every step of an enabled iteration holds all along
    a run. *)
Lemma along_the_run (P : Team Stats Tree Random -> Prop) :
  (forall team t, invariant' team -> P team -> t < n ->
                  enabled team t = true -> P (go' t team)) ->
  forall steps sched team,
    invariant' team -> P team -> P (run' steps sched team).
Proof.
  intros Hstep. induction steps as [|steps IH]; intros sched team Inv HP;
    simpl; [assumption|].
  apply IH; [now apply loop_invariant_step|].
  destruct (omp_step_cases context parameters data n (hd 0 sched) team)
    as [[_ ->] | [t [Ht [Hen ->]]]]; [assumption | now apply Hstep].
Qed.

Ltac lock_trace_snoc :=
  unfold lock_trace in *; rewrite ?flat_map_app; simpl;
  rewrite ?app_nil_r.

Lemma lock_state_advance (team : Team Stats Tree Random) (t : nat) :
  invariant' team -> (exists done, lock_state team done) ->
  t < n -> enabled team t = true ->
  exists done, lock_state (go' t team) done.
Proof.
  intros Inv [done Hlock] Ht Hen.
  pose proof (inv_critical Inv Ht) as Hcrit.
  unfold advance, enabled in *.
  destruct (position team t) as [|tree|tree| |] eqn:Epos.
  - (* [TrainTree] *)
    destruct (TrainTree (shared_random team) context parameters data)
      as [tree random'].
    exists done.
    destruct Hlock as [Hfree Htr Hf | t0 tree0 Hheld Hpos Htr Hf
                       | t0 tree0 Hheld Hpos Htr Hf].
    + apply lock_free; simpl; [assumption | lock_trace_snoc; assumption
                               | assumption].
    + apply (@lock_taken _ _ t0 tree0); simpl;
        [assumption | | lock_trace_snoc; assumption | assumption].
      rewrite move_other; [assumption | congruence].
    + apply (@lock_added _ _ t0 tree0); simpl;
        [assumption | | lock_trace_snoc; assumption | assumption].
      rewrite move_other; [assumption | congruence].
  - (* [omp_set_lock] *)
    destruct (writelock team) as [holder|] eqn:Elock; [discriminate|].
    exists done.
    destruct Hlock as [Hfree Htr Hf | t0 tree0 Hheld Hpos Htr Hf
                       | t0 tree0 Hheld Hpos Htr Hf]; try congruence.
    apply (@lock_taken _ _ t tree); simpl;
      [reflexivity | apply move_same | lock_trace_snoc; now rewrite Htr
       | assumption].
  - (* [AddTree] *)
    specialize (Hcrit eq_refl). exists done.
    destruct Hlock as [Hfree Htr Hf | t0 tree0 Hheld Hpos Htr Hf
                       | t0 tree0 Hheld Hpos Htr Hf]; try congruence.
    assert (t0 = t) by congruence. subst t0.
    assert (tree0 = tree) by congruence. subst tree0.
    apply (@lock_added _ _ t tree); simpl;
      [assumption | apply move_same | | unfold AddTree; now rewrite Hf].
    lock_trace_snoc. rewrite Htr, Hcrit, <- app_assoc. reflexivity.
  - (* [omp_unset_lock] *)
    specialize (Hcrit eq_refl).
    destruct Hlock as [Hfree Htr Hf | t0 tree0 Hheld Hpos Htr Hf
                       | t0 tree0 Hheld Hpos Htr Hf]; try congruence.
    assert (t0 = t) by congruence. subst t0.
    exists (done ++ [(t, tree0)]).
    apply lock_free; simpl; [reflexivity | | now rewrite map_app].
    lock_trace_snoc. rewrite Htr, <- app_assoc. reflexivity.
  - discriminate.
Qed.

(** *** No step is lost, and none is missing *)

Lemma omp_step_when_finished (choice : nat)
      (team : Team Stats Tree Random) :
  remaining n team = 0 -> step' choice team = team.
Proof.
  intros Hrem.
  destruct (omp_step_cases context parameters data n choice team)
    as [[_ ->] | [t [Ht [Hen _]]]]; [reflexivity|].
  assert (Hfin : position team t = Finished)
    by (eapply all_finished; eassumption).
  unfold enabled in Hen. rewrite Hfin in Hen. discriminate.
Qed.

Lemma remaining_after (steps : nat) :
  forall (sched : list nat) (team : Team Stats Tree Random),
    invariant' team ->
    remaining n (run' steps sched team) = remaining n team - steps.
Proof.
  induction steps as [|steps IH]; intros sched team Inv; simpl; [lia|].
  rewrite IH by now apply loop_invariant_step.
  destruct (Nat.eq_dec (remaining n team) 0) as [Hzero | Hpos].
  - rewrite omp_step_when_finished by assumption. lia.
  - pose proof (@remaining_step context parameters data n (hd 0 sched)
                                team Inv ltac:(lia)). lia.
Qed.

End LoopMore.

(** ** The critical sections of a run *)

Lemma lock_trace_messages (l : list (Message Stats)) :
  lock_trace (map (@Printed Stats Tree) l) = [].
Proof.
  unfold lock_trace. induction l as [|m l IH]; simpl; [|exact IH].
  reflexivity.
Qed.

Lemma AddTree_calls_lock_trace (tr : list (Event Stats Tree)) :
  AddTree_calls (lock_trace tr) = AddTree_calls tr.
Proof.
  unfold AddTree_calls, lock_trace.
  induction tr as [|e tr IH]; simpl; [reflexivity|].
  rewrite flat_map_app, IH. destruct e; reflexivity.
Qed.

Lemma AddTree_calls_sections (sections : list (nat * Tree)) :
  AddTree_calls (flat_map critical_section sections)
  = map (fun c => (fst c, snd c, Some (fst c))) sections.
Proof.
  unfold AddTree_calls.
  induction sections as [|c sections IH]; simpl; [reflexivity|].
  now rewrite IH.
Qed.

(** When the loop is over the lock is free. *)
Lemma lock_free_at_the_end
      (context : ClassificationTrainingContext Stats)
      (parameters : TrainingParameters.t) (n : nat)
      (team : Team Stats Tree Random) :
  loop_invariant context parameters n team ->
  (forall t, t < n -> position team t = Finished) ->
  writelock team = None.
Proof.
  intros Inv Hfin. destruct (writelock team) as [t|] eqn:Elock;
    [|reflexivity].
  destruct (inv_holder Inv Elock) as [Ht Hcrit].
  rewrite (Hfin t Ht) in Hcrit. discriminate.
Qed.

(** The lock events of the whole loop. *)
Lemma loop_sections (random : Random)
      (context : ClassificationTrainingContext Stats)
      (parameters : TrainingParameters.t) (data : DataPointCollection Stats)
      (sched : list nat) :
  let team := omp_parallel_for random context parameters data sched in
  exists sections,
    lock_trace (team_events team) = flat_map critical_section sections.
Proof.
  intros team.
  set (n := Z.to_nat (TrainingParameters.NumberOfTrees parameters)).
  assert (Hend : loop_invariant context parameters n team /\
                 forall t, t < n -> position team t = Finished)
    by exact (@loop_ends context parameters data n sched random).
  destruct Hend as [Inv Hfin].
  assert (Hlock : exists done, lock_state team done).
  { apply (@along_the_run context parameters data n
             (fun team => exists done, lock_state team done)).
    - intros team' t Inv' H Ht Hen.
      eapply lock_state_advance; eassumption.
    - apply loop_invariant_start.
    - exists []. apply lock_free; reflexivity. }
  destruct Hlock as [done Hlock]. exists done.
  pose proof (lock_free_at_the_end Inv Hfin) as Hnone.
  destruct Hlock as [_ Htr _ | t tree Hheld _ _ _ | t tree Hheld _ _ _];
    [exact Htr | congruence | congruence].
Qed.

(** X1.  In every run the uses of the lock and the calls of [AddTree]
    form, in the order in which they happen, a sequence of whole critical
    sections [omp_set_lock; AddTree; omp_unset_lock], each of one iteration
    with its own tree: critical sections never overlap, each holds exactly
    one [AddTree], and every lock taken is released.  The trees of the
    sections, in this order, are the trees added to the forest. *)
Theorem X1_critical_sections_follow_one_another
        (F : FeatureResponse) (env : Environment Random)
        (data : DataPointCollection Stats) (options : Options.t) :
  let tr := trace (main_function F env data options) in
  exists sections : list (nat * Tree),
    lock_trace tr = flat_map critical_section sections /\
    map fst sections = added_indices tr /\
    map snd sections = added_trees tr.
Proof.
  intros tr.
  assert (Hsections : exists sections,
             lock_trace tr = flat_map critical_section sections).
  { subst tr. unfold trace. rewrite main_function_eq. cbn [fst].
    unfold lock_trace at 1. rewrite !flat_map_app.
    fold (lock_trace (map (@Printed Stats Tree)
                          (prelude_messages data options
                           ++ scaling_messages data options
                           ++ fallback_messages options))).
    rewrite lock_trace_messages.
    unfold training_events, saving_events, team_of.
    destruct (loop_sections (seed env) (context_of F data options)
                            (parameters_of options) data (schedule env))
      as [sections Hs].
    destruct (workers options =? 1)%Z.
    - exists []. destruct (ofstream_opens env (Options.ForestName options));
        reflexivity.
    - exists sections. rewrite flat_map_app.
      fold (lock_trace (team_events
                          (omp_parallel_for (seed env)
                             (context_of F data options)
                             (parameters_of options) data (schedule env)))).
      rewrite Hs.
      destruct (Options.Verbose options),
        (ofstream_opens env (Options.ForestName options)); simpl;
        now rewrite app_nil_r. }
  destruct Hsections as [sections Hs]. exists sections.
  split; [exact Hs|].
  unfold added_indices, added_trees.
  rewrite <- (AddTree_calls_lock_trace tr), Hs, AddTree_calls_sections.
  rewrite !map_map. simpl. split; apply map_ext; reflexivity.
Qed.

(** ** The loop cannot block *)

(** X2.  Whatever the schedule, a team of [n] iterations that has taken
    fewer than [4 * n] steps has an iteration that can take its next step:
    an iteration waiting at [omp_set_lock] never waits for a lock that
    nobody will release.  After [4 * n] steps, and from then on, every
    iteration has finished its body and the lock is free. *)
Theorem X2_parallel_loop_never_blocks
        (context : ClassificationTrainingContext Stats)
        (parameters : TrainingParameters.t) (data : DataPointCollection Stats)
        (n steps : nat) (sched : list nat) (random : Random) :
  let team :=
    omp_run context parameters data n steps sched (team_start random) in
  (steps < 4 * n -> exists t, t < n /\ enabled team t = true) /\
  (4 * n <= steps ->
   (forall t, t < n -> position team t = Finished) /\
   writelock team = None).
Proof.
  intros team.
  assert (Inv : loop_invariant context parameters n team)
    by apply loop_invariant_run, loop_invariant_start.
  pose proof (@remaining_after context parameters data n steps sched
                (team_start random)
                (loop_invariant_start context parameters n random))
    as Hrem.
  fold team in Hrem. rewrite remaining_start in Hrem. split.
  - intros Hfew.
    pose proof (@enabled_exists context parameters n team Inv ltac:(lia))
      as Hen.
    destruct (filter (enabled team) (seq 0 n)) as [|t rest] eqn:Ef;
      [now elim Hen|].
    assert (Hin : In t (filter (enabled team) (seq 0 n)))
      by (rewrite Ef; now left).
    apply filter_In in Hin. destruct Hin as [Hseq Ht].
    apply in_seq in Hseq. exists t. split; [lia | exact Ht].
  - intros Hmany.
    assert (Hfin : forall t, t < n -> position team t = Finished)
      by (apply all_finished; lia).
    split; [exact Hfin | exact (lock_free_at_the_end Inv Hfin)].
Qed.

(** ** Saving comes last *)

(** X4.  A run opens the output stream once, calls [Serialize] once and
    writes the file at most once, and these are its last events: nothing
    is opened, serialized or written before all messages are printed and
    all training is over. *)
Theorem X4_saving_comes_last_and_once
        (F : FeatureResponse) (env : Environment Random)
        (data : DataPointCollection Stats) (options : Options.t) :
  let tr := trace (main_function F env data options) in
  let path := Options.ForestName options in
  let good := ofstream_opens env path in
  exists before forest,
    tr = before
         ++ [Opened path good; Call_Serialize forest good]
         ++ (if good then [Written path (fst (Forest_Serialize forest good))]
             else []) /\
    opened before = [] /\ serialized before = [] /\ artifact before = [].
Proof.
  intros tr path good. subst tr path good.
  exists (map (@Printed Stats Tree)
              (prelude_messages data options ++ scaling_messages data options
               ++ fallback_messages options)
          ++ training_events F env data options),
         (trained_forest F env data options).
  split.
  - unfold trace. rewrite main_function_eq. cbn [fst].
    unfold saving_events. now rewrite <- app_assoc.
  - destruct (messages_are_quiet
                (prelude_messages data options
                 ++ scaling_messages data options
                 ++ fallback_messages options))
      as (_ & _ & _ & _ & _ & Hm1 & Hm2 & Hm3).
    destruct (team_of_result F env data options) as [Inv _].
    destruct (inv_quiet Inv) as (_ & _ & Hq1 & Hq2 & Hq3).
    unfold opened, serialized, artifact, training_events in *.
    rewrite !flat_map_app, Hm1, Hm2, Hm3.
    destruct (workers options =? 1)%Z; [repeat split|].
    rewrite !flat_map_app, Hq1, Hq2, Hq3.
    destruct (Options.Verbose options); repeat split.
Qed.

(** ** What a run prints *)

(** X5.  Without [Verbose] a run prints at most two messages: the
    fallback message in a build without OpenMP that was asked for more than
    one worker, and "Using 1 thread." whenever it trains with one worker.
    A run that trains in the parallel loop prints nothing. *)
Theorem X5_messages_without_Verbose
        (F : FeatureResponse) (env : Environment Random)
        (data : DataPointCollection Stats) (options : Options.t) :
  Options.Verbose options = false ->
  printed (trace (main_function F env data options))
  = (if USE_OPENMP then []
     else if (1 <? Options.MaxThreads options)%Z then [NoOpenMPFallback]
          else [])
    ++ (if (workers options =? 1)%Z then [Using1Thread] else []).
Proof.
  intros Hquiet. rewrite run_printed.
  unfold prelude_messages, scaling_messages, fallback_messages.
  rewrite Hquiet.
  destruct (Options.FeatureScaling options); reflexivity.
Qed.

Lemma feature_lines_app (l1 l2 : list (Message Stats)) :
  feature_lines (l1 ++ l2) = feature_lines l1 ++ feature_lines l2.
Proof. apply flat_map_app. Qed.

Lemma feature_lines_of_stats (data : DataPointCollection Stats)
      (ds : list nat) :
  feature_lines (map (fun d => FeatureLine d (GetStats data d)) ds)
  = map (fun d => (d, GetStats data d)) ds.
Proof.
  unfold feature_lines. induction ds as [|d ds IH]; simpl;
    [reflexivity | now rewrite IH].
Qed.

(** X6.  The feature lines of a run are printed exactly when [Verbose] and
    [FeatureScaling] are both on; there is then one line per feature
    dimension, in increasing order of the dimension, and line [d] reports
    [GetStats(d)].  In a verbose run the statistics reported are, in this
    order, the [featureStats] given to the factory. *)
Theorem X6_feature_lines_report_the_statistics
        (F : FeatureResponse) (env : Environment Random)
        (data : DataPointCollection Stats) (options : Options.t) :
  let tr := trace (main_function F env data options) in
  feature_lines (printed tr)
  = (if Options.Verbose options && Options.FeatureScaling options then
       map (fun d => (d, GetStats data d)) (seq 0 (Dimensions data))
     else []) /\
  (Options.Verbose options = true ->
   forall p c,
     In (p, c) (trainer_inputs tr) ->
     map snd (feature_lines (printed tr))
     = featureStats (featureFactory c)).
Proof.
  intros tr. subst tr.
  assert (Hlines :
            feature_lines
              (printed (trace (main_function F env data options)))
            = (if Options.Verbose options
                  && Options.FeatureScaling options then
                 map (fun d => (d, GetStats data d))
                     (seq 0 (Dimensions data))
               else [])).
  { rewrite run_printed, !feature_lines_app.
    unfold prelude_messages, scaling_messages, fallback_messages.
    destruct (Options.Verbose options), (Options.FeatureScaling options),
      (WeakLearner_eqb (Options.WeakLearner options) AxisAligned),
      USE_OPENMP, (1 <? Options.MaxThreads options)%Z,
      (workers options =? 1)%Z; simpl;
      rewrite ?feature_lines_of_stats, ?app_nil_r; reflexivity. }
  split; [exact Hlines|].
  intros Hverbose p c Hin. apply run_trainer_inputs in Hin.
  inversion Hin. rewrite Hlines, Hverbose.
  unfold context_of, featureStats_of, all_stats. simpl.
  destruct (Options.FeatureScaling options); simpl; [|reflexivity].
  rewrite map_map. reflexivity.
Qed.

(** ** Which instance runs *)

(** X7.  Whatever [mexFunction] hands to the trainer, the factory is the
    axis-aligned one exactly when the selector is [AxisAligned], whatever
    [FeatureScaling]; it is the plain random hyperplane exactly when the
    selector is [RandomHyperplane] and [FeatureScaling] is off; it has the
    dimensions of the data and the context has its number of classes; and
    with [FeatureScaling] on it gets one statistic per dimension, the
    axis-aligned factory too. *)
Theorem X7_factory_of_every_instance
        (env : Environment Random) (data : DataPointCollection Stats)
        (options : Options.t)
        (p : TrainingParameters.t) (c : ClassificationTrainingContext Stats) :
  In (p, c) (trainer_inputs (trace (mexFunction env data options))) ->
  let factory := featureFactory c in
  (response factory = AxisAlignedFeatureResponse <->
   Options.WeakLearner options = AxisAligned) /\
  (response factory = RandomHyperplaneFeatureResponse <->
   Options.WeakLearner options = RandomHyperplane /\
   Options.FeatureScaling options = false) /\
  dimensions factory = Dimensions data /\
  nClasses c = CountClasses data /\
  (Options.FeatureScaling options = true ->
   featureStats factory = map (GetStats data) (seq 0 (Dimensions data))).
Proof.
  intros Hin factory. unfold mexFunction, instantiation in Hin.
  subst factory.
  destruct (Options.WeakLearner options) as [| |code] eqn:Ewl,
    (Options.FeatureScaling options) eqn:Efs; simpl in Hin;
    try destruct Hin;
    apply run_trainer_inputs in Hin; inversion Hin;
    unfold context_of, featureStats_of, all_stats; simpl; rewrite ?Efs;
    repeat split; intros; try discriminate; try reflexivity;
    try (destruct H as [? ?]; discriminate).
Qed.

(** X8.  [mexFunction] opens the output file, once, exactly when the
    selector is [AxisAligned] or [RandomHyperplane], for either value of
    [FeatureScaling]: no combination of the two known selectors with the
    scaling flag falls through the chain of [if]s. *)
Theorem X8_known_selectors_always_run
        (env : Environment Random) (data : DataPointCollection Stats)
        (options : Options.t) :
  opened (trace (mexFunction env data options))
  = (if WeakLearner_eqb (Options.WeakLearner options) AxisAligned
        || WeakLearner_eqb (Options.WeakLearner options) RandomHyperplane
     then [(Options.ForestName options,
            ofstream_opens env (Options.ForestName options))]
     else []).
Proof.
  unfold mexFunction, instantiation.
  destruct (Options.WeakLearner options) as [| |code],
    (Options.FeatureScaling options); simpl;
    try apply run_opened; reflexivity.
Qed.

(** ** One iteration at a time inside the lock *)

Lemma filter_none (f : nat -> bool) (l : list nat) :
  (forall t, In t l -> f t = false) -> filter f l = [].
Proof.
  induction l as [|a l IH]; intros H; simpl; [reflexivity|].
  rewrite (H a (or_introl eq_refl)). apply IH.
  intros t Ht. apply H. now right.
Qed.

Lemma filter_only (f : nat -> bool) (l : list nat) (t : nat) :
  NoDup l -> In t l ->
  (forall t', In t' l -> (f t' = true <-> t' = t)) ->
  filter f l = [t].
Proof.
  intros Hnd Hin Hf. induction l as [|a l IH]; [destruct Hin|].
  inversion Hnd as [|? ? Hnotin Hnd']; subst. simpl.
  destruct Hin as [-> | Hin].
  - rewrite (proj2 (Hf t (or_introl eq_refl)) eq_refl). f_equal.
    apply filter_none. intros t' Ht'.
    destruct (f t') eqn:Eft; [|reflexivity].
    apply (Hf t' (or_intror Ht')) in Eft. subst. contradiction.
  - destruct (f a) eqn:Efa.
    + apply (Hf a (or_introl eq_refl)) in Efa. subst. contradiction.
    + apply IH; [assumption | assumption |].
      intros t' Ht'. apply Hf. now right.
Qed.

(** X9.  At every moment of the parallel loop, whatever the schedule, the
    iterations that stand between their [omp_set_lock] and their
    [omp_unset_lock] are the holder of the lock and nobody else: at most
    one iteration is inside its critical section, and none when the lock
    is free. *)
Theorem X9_one_iteration_inside_the_lock
        (context : ClassificationTrainingContext Stats)
        (parameters : TrainingParameters.t) (data : DataPointCollection Stats)
        (n steps : nat) (sched : list nat) (random : Random) :
  let team :=
    omp_run context parameters data n steps sched (team_start random) in
  filter (fun t => in_critical (position team t)) (seq 0 n)
  = match writelock team with
    | Some holder => [holder]
    | None => []
    end.
Proof.
  intros team.
  assert (Inv : loop_invariant context parameters n team)
    by apply loop_invariant_run, loop_invariant_start.
  destruct (writelock team) as [holder|] eqn:Elock.
  - destruct (inv_holder Inv Elock) as [Hlt Hcrit].
    apply filter_only; [apply seq_NoDup | apply in_seq; lia |].
    intros t Ht. apply in_seq in Ht. split.
    + intros Hin.
      assert (Hlt' : t < n) by lia.
      pose proof (inv_critical Inv Hlt' Hin). congruence.
    + intros ->. exact Hcrit.
  - apply filter_none. intros t Ht. apply in_seq in Ht.
    destruct (in_critical (position team t)) eqn:Hin; [|reflexivity].
    assert (Hlt : t < n) by lia.
    pose proof (inv_critical Inv Hlt Hin). congruence.
Qed.

End Sherwood.

Unset Implicit Arguments.

(** * Runs on concrete inputs *)

Local Abbreviation toy_main_function :=
  (main_function Toy.TrainTree Toy.Forest_Serialize).
Local Abbreviation toy_mexFunction :=
  (mexFunction Toy.TrainTree Toy.Forest_Serialize).
Local Abbreviation Normalized := RandomHyperplaneFeatureResponseNormalized.


(** C2, on two trees and two workers.  Both iterations call [TrainTree] on
    the one [random] while no iteration holds [writelock]; an iteration can
    even draw while the other is inside its critical section; and the
    tree that iteration 0 adds depends on whether iteration 1 drew before
    it.  Only [AddTree] is inside the lock. *)
Theorem C2_random_is_drawn_outside_the_lock :
  let run sched :=
    trace (toy_main_function true AxisAlignedFeatureResponse
                             (Toy.env true sched) (Toy.data 2)
                             (Toy.options 2 2 AxisAligned false false)) in
  TrainTree_calls (run [0; 1]) = [(0, None); (1, None)] /\
  TrainTree_calls (run [0; 0; 1]) = [(0, None); (1, Some 0)] /\
  AddTree_calls (run [0; 1]) = [(0, 0, Some 0); (1, 1, Some 1)] /\
  AddTree_calls (run [1; 0]) = [(0, 1, Some 0); (1, 0, Some 1)].
Proof. vm_compute. repeat split. Qed.

Lemma C3_witness :
  let options := Toy.options 3 4 AxisAligned false false in
  let run :=
    toy_main_function false AxisAlignedFeatureResponse (Toy.env true [])
                      (Toy.data 2) options in
  (1 < Options.MaxThreads options)%Z /\
  In NoOpenMPFallback (printed (trace run)) /\
  TrainTree_calls (trace run) = [] /\
  outcome run <> Throws NullForest.
Proof.
  intros options run.
  assert (Hmany : (1 < Options.MaxThreads options)%Z) by (simpl; lia).
  split; [exact Hmany|].
  destruct (@C3_without_openmp_one_worker
              _ _ _ Toy.TrainTree Toy.Forest_Serialize false
              AxisAlignedFeatureResponse (Toy.env true []) (Toy.data 2)
              options eq_refl Hmany)
    as (Hmsg & _ & _ & _ & Hnone & _ & Hend).
  split; [exact Hmsg | split; [exact Hnone | exact Hend]].
Defined.

Lemma C4_witness :
  let options := Toy.options 1 1 RandomHyperplane true false in
  let tr :=
    trace (toy_mexFunction true (Toy.env true []) (Toy.data 3) options) in
  let c := context_of Normalized (Toy.data 3) options in
  0 < Dimensions (Toy.data 3) /\
  In (parameters_of options, c) (trainer_inputs tr) /\
  response (featureFactory c) = Normalized /\
  featureStats (featureFactory c) <> [] /\
  featureStats (featureFactory c) = [0; 1; 2]%Z.
Proof.
  intros options tr c.
  assert (Hpos : 0 < Dimensions (Toy.data 3)) by (simpl; lia).
  assert (Hin : In (parameters_of options, c) (trainer_inputs tr))
    by (vm_compute; left; reflexivity).
  split; [exact Hpos|]. split; [exact Hin|].
  destruct (@C4_normalized_gets_one_entry_per_dimension
              _ _ _ _ Toy.F_CreateRandom Toy.TrainTree Toy.Forest_Serialize
              true (Toy.env true []) (Toy.data 3) options
              (parameters_of options) c Hpos Hin)
    as (_ & _ & Hstats & _).
  destruct (Hstats eq_refl) as (Hne & Hall & _).
  split; [reflexivity|]. split; [exact Hne | exact Hall].
Defined.

(** C6 as stated fails: in a build with OpenMP, two workers and options
    whose four counts are not positive, nothing aborts the run: it trains
    no tree, opens the output file and hands an empty forest to
    [Serialize]. *)
Lemma C6_counterexample :
  let options := Toy.options_without_counts 0 2 in
  let run :=
    toy_main_function true AxisAlignedFeatureResponse (Toy.env true [])
                      (Toy.data 2) options in
  (Options.MaxDecisionLevels options <= 0)%Z /\
  (Options.NumberOfCandidateFeatures options <= 0)%Z /\
  (Options.NumberOfCandidateThresholdsPerFeature options <= 0)%Z /\
  (Options.NumberOfTrees options <= 0)%Z /\
  nonpositive_count options /\
  trainer_inputs (trace run) = [] /\
  opened (trace run) = [("forest.bin"%string, true)] /\
  serialized (trace run) = [([], true)].
Proof.
  vm_compute. repeat split; try discriminate. left. discriminate.
Qed.


(** C8 as stated fails: without [Verbose] nothing tells the caller that no
    feature scaling is performed. *)
Lemma C8_counterexample :
  let options := Toy.options 2 1 RandomHyperplane false false in
  let run :=
    toy_mexFunction true (Toy.env true []) (Toy.data 2) options in
  Options.FeatureScaling options = false /\
  Options.WeakLearner options <> AxisAligned /\
  printed (trace run) = [Using1Thread] /\
  map (fun pc => response (featureFactory (snd pc)))
      (trainer_inputs (trace run)) = [RandomHyperplaneFeatureResponse].
Proof. vm_compute. repeat split. discriminate. Qed.

Lemma C8_witness :
  let options := Toy.options 2 1 RandomHyperplane false true in
  let run :=
    toy_main_function true RandomHyperplaneFeatureResponse
                      (Toy.env true []) (Toy.data 2) options in
  Options.FeatureScaling options = false /\
  In NoFeatureScaling (printed (trace run)).
Proof.
  intros options run. split; [reflexivity|].
  destruct (C8_note_only_when_verbose
              Toy.TrainTree Toy.Forest_Serialize true
              RandomHyperplaneFeatureResponse (Toy.env true [])
              (Toy.data 2) options eq_refl)
    as ([_ Hnote] & _).
  apply Hnote. split; [reflexivity | discriminate].
Defined.

Lemma C9_witness :
  let options := Toy.options 2 1 (OtherWeakLearner 7) true true in
  let run := toy_mexFunction true (Toy.env true []) (Toy.data 2) options in
  Options.WeakLearner options <> AxisAligned /\
  Options.WeakLearner options <> RandomHyperplane /\
  trace run = [] /\ outcome run = Returns tt.
Proof.
  intros options run.
  assert (H1 : Options.WeakLearner options <> AxisAligned) by discriminate.
  assert (H2 : Options.WeakLearner options <> RandomHyperplane)
    by discriminate.
  split; [exact H1|]. split; [exact H2|].
  exact (C9_unknown_weak_learner_does_nothing
           Toy.TrainTree Toy.Forest_Serialize true (Toy.env true [])
           (Toy.data 2) options H1 H2).
Defined.

Lemma X5_witness :
  let options := Toy.options 3 4 AxisAligned true false in
  let run :=
    toy_main_function false AxisAlignedFeatureResponse (Toy.env true [])
                      (Toy.data 2) options in
  Options.Verbose options = false /\
  printed (trace run) = [NoOpenMPFallback; Using1Thread].
Proof.
  intros options run. split; [reflexivity|].
  exact (@X5_messages_without_Verbose
           _ _ _ Toy.TrainTree Toy.Forest_Serialize false
           AxisAlignedFeatureResponse (Toy.env true [])
           (Toy.data 2) options eq_refl).
Defined.

Lemma X7_witness :
  let options := Toy.options 1 1 AxisAligned true false in
  let tr :=
    trace (toy_mexFunction true (Toy.env true []) (Toy.data 3) options) in
  let c := context_of AxisAlignedFeatureResponse (Toy.data 3) options in
  In (parameters_of options, c) (trainer_inputs tr) /\
  response (featureFactory c) = AxisAlignedFeatureResponse /\
  dimensions (featureFactory c) = 3 /\
  featureStats (featureFactory c) = [0; 1; 2]%Z.
Proof.
  intros options tr c.
  assert (Hin : In (parameters_of options, c) (trainer_inputs tr))
    by (vm_compute; left; reflexivity).
  split; [exact Hin|].
  destruct (@X7_factory_of_every_instance
              _ _ _ Toy.TrainTree Toy.Forest_Serialize true
              (Toy.env true []) (Toy.data 3) options
              (parameters_of options) c Hin)
    as (Haa & _ & Hdim & _ & Hstats).
  split; [apply Haa; reflexivity|].
  split; [exact Hdim | exact (Hstats eq_refl)].
Defined.
